(** * Weather dashboard: the two Streamlit scripts, embedded and verified

    [streamlit_weather_app.py] (the original variant, module [V1]) and
    [streamlit_weather_app_v2.py] (the improved variant, module [V2]) share
    two helpers, [reverse_geocode] and [fetch_hourly_weather], and a top-level
    script that renders the fetched table.

    The outside world is made explicit:
    - the outcome of the single [requests.get] call of a helper is an
      argument of that helper ([http_outcome]);
    - widgets written to the page are collected in a list, and a script ends
      by running to its last line, by [st.stop()], or by an exception nobody
      catches ([ui]);
    - string formatting of floats and the date parser of pandas are
      variables of a section;
    - [st.cache_data] only memoises and is left out. *)

From Stdlib Require Import ZArith List String Ascii Bool Lia.
From Stdlib Require Import Sorted Permutation DecimalString.
Import ListNotations.

Set Warnings "-register-all".
Open Scope string_scope.
Open Scope Z_scope.

(** ** Exceptions and fallible computations *)

Inductive exn : Type :=
| ConnectionError              (* requests: transport failure or timeout *)
| HTTPError (status : Z)       (* raise_for_status *)
| JSONDecodeError              (* r.json() on a body that is not JSON *)
| AttributeError
| TypeError
| ValueError
| IndexError
| KeyError (key : string)
| DateParseError.              (* pd.to_datetime, errors="raise" *)

Inductive result (A : Type) : Type :=
| Ok (a : A)
| Raise (e : exn).

Arguments Ok {A} a.
Arguments Raise {A} e.

Definition bind {A B : Type} (m : result A) (k : A -> result B) : result B :=
  match m with
  | Ok a => k a
  | Raise e => Raise e
  end.

Declare Scope py_scope.
Delimit Scope py_scope with py.
Notation "x <- m ;; k" := (bind m (fun x => k))
  (at level 100, m at next level, right associativity) : py_scope.
Notation "m ;;; k" := (bind m (fun _ => k))
  (at level 100, right associativity) : py_scope.
Open Scope py_scope.

(** ** The HTTP client *)

(** What [requests.get] gives: an exception (no connection, timeout), or a
    response with a status code and a body.  [body = None] is a body whose
    text is not JSON. *)
Inductive http_outcome (B : Type) : Type :=
| NoResponse
| Response (status : Z) (body : option B).

Arguments NoResponse {B}.
Arguments Response {B} status body.

Record response (B : Type) : Type :=
  { status_code : Z; parsed_body : option B }.

Arguments status_code {B} r.
Arguments parsed_body {B} r.

Definition requests_get {B : Type} (o : http_outcome B) : result (response B) :=
  match o with
  | NoResponse => Raise ConnectionError
  | Response s b => Ok {| status_code := s; parsed_body := b |}
  end.

(** [Response.raise_for_status]: client and server errors raise. *)
Definition is_error_status (s : Z) : bool := (400 <=? s) && (s <? 600).

Definition raise_for_status {B : Type} (r : response B) : result unit :=
  if is_error_status (status_code r) then Raise (HTTPError (status_code r))
  else Ok tt.

Definition response_json {B : Type} (r : response B) : result B :=
  match parsed_body r with
  | Some b => Ok b
  | None => Raise JSONDecodeError
  end.

(** The HTTP call failed: no response, or a status that
    [raise_for_status] rejects. *)
Definition call_failed {B : Type} (o : http_outcome B) : bool :=
  match o with
  | NoResponse => true
  | Response s _ => is_error_status s
  end.

(** ** JSON values as Python sees them (the geocoder's body) *)

Inductive json : Type :=
| JNull
| JBool (b : bool)
| JNum (mantissa : Z) (decimals : nat)   (* mantissa / 10^decimals *)
| JStr (s : string)
| JArr (items : list json)
| JObj (fields : list (string * json)).

(** Python truthiness. *)
Definition truthy (v : json) : bool :=
  match v with
  | JNull => false
  | JBool b => b
  | JNum m _ => negb (m =? 0)
  | JStr s => negb (String.eqb s "")
  | JArr l => match l with [] => false | _ => true end
  | JObj l => match l with [] => false | _ => true end
  end.

(** [x or d] *)
Definition py_or (x d : json) : json := if truthy x then x else d.

Fixpoint assoc {V : Type} (k : string) (l : list (string * V)) : option V :=
  match l with
  | [] => None
  | (k', v) :: r => if String.eqb k k' then Some v else assoc k r
  end.

(** [v.get(key)]: [None] for a missing key; only dicts have [get]. *)
Definition py_get (v : json) (key : string) : result json :=
  match v with
  | JObj fields =>
      Ok (match assoc key fields with Some x => x | None => JNull end)
  | _ => Raise AttributeError
  end.

(** [v[0]] *)
Definition py_first (v : json) : result json :=
  match v with
  | JArr (x :: _) => Ok x
  | JArr [] => Raise IndexError
  | JStr (String c _) => Ok (JStr (String c ""))
  | JStr "" => Raise IndexError
  | JObj _ => Raise (KeyError "0")
  | _ => Raise TypeError
  end.

(** [sep.join(parts)]: every part must be a [str]. *)
Fixpoint as_strings (parts : list json) : result (list string) :=
  match parts with
  | [] => Ok []
  | JStr s :: r => (ss <- as_strings r ;; Ok (s :: ss))
  | _ :: _ => Raise TypeError
  end.

Definition str_join (sep : string) (parts : list json) : result string :=
  ss <- as_strings parts ;; Ok (String.concat sep ss).

(** ** reverse_geocode (the same text in both variants) *)

Section Geocoder.

(** Python floats and [f"{x:.Nf}"]. *)
Variable float : Type.
Variable format_f : nat -> float -> string.

(** The body of the [try] block; [Ok None] is falling off its end. *)
Definition reverse_geocode_try (get : http_outcome json)
  : result (option string) :=
  r <- requests_get get ;;
  raise_for_status r ;;;
  body <- response_json r ;;
  let js := py_or body (JObj []) in
  found <- py_get js "results" ;;
  let results := py_or found (JArr []) in
  if truthy results then
    item <- py_first results ;;
    city <- py_get item "name" ;;
    admin1 <- py_get item "admin1" ;;
    admin2 <- py_get item "admin2" ;;
    let admin := py_or (py_or admin1 admin2) (JStr "") in
    c <- py_get item "country" ;;
    let country := py_or c (JStr "") in
    let parts := filter truthy [city; admin; country] in
    label <- str_join ", " parts ;;
    Ok (Some label)
  else Ok None.

Definition coordinate_text (lat lon : float) : string :=
  format_f 3 lat ++ ", " ++ format_f 3 lon.

Definition reverse_geocode (get : http_outcome json) (lat lon : float)
  : string :=
  match reverse_geocode_try get with
  | Ok (Some label) => label
  | Ok None => coordinate_text lat lon
  | Raise _ => coordinate_text lat lon
  end.

End Geocoder.

(** ** Tables (pandas) *)

(** A value held in a table: a JSON scalar of the forecast body, or what
    [pd.to_datetime] puts in its place. *)
Inductive cell : Type :=
| CNull
| CBool (b : bool)
| CNum (mantissa : Z) (decimals : nat)
| CStr (s : string)
| CTime (t : Z)                (* Timestamp, nanoseconds since the epoch *)
| CNaT.

(** The JSON object under ["hourly"]: each field an array of scalars.  It
    stands for the parsed dict, whose keys are distinct. *)
Definition hourly_object : Type := list (string * list cell).

(** The forecast body, at the shape the forecast API documents: a JSON
    object whose ["hourly"] field is missing or null ([None]) or an object
    of arrays.  The arrays need not have one length. *)
Record forecast_json : Type := { hourly : option hourly_object }.

(** A DataFrame, held row by row: the index label of a row with its cells in
    the order of [columns]. *)
Definition row : Type := (cell * list cell)%type.

Record DataFrame : Type := { columns : list string; rows : list row }.

(** [pd.DataFrame()] *)
Definition empty_frame : DataFrame := {| columns := []; rows := [] |}.

Definition range_label (i : nat) : cell := CNum (Z.of_nat i) 0.

(** Row [i] of a dict of arrays. *)
Definition row_at (d : hourly_object) (i : nat) : row :=
  (range_label i, map (fun kv => nth i (snd kv) CNull) d).

(** [pd.DataFrame(d)] for a dict of arrays: arrays of one length, a
    RangeIndex; anything else is "All arrays must be of the same length". *)
Definition pd_DataFrame (d : hourly_object) : result DataFrame :=
  match d with
  | [] => Ok empty_frame
  | (_, first) :: others =>
      let n := List.length first in
      if forallb (fun kv => Nat.eqb (List.length (snd kv)) n) others then
        Ok {| columns := map fst d; rows := map (row_at d) (seq 0 n) |}
      else Raise ValueError
  end.

(** [df.empty]: some axis has length 0. *)
Definition df_empty (df : DataFrame) : bool :=
  match columns df, rows df with
  | [], _ => true
  | _, [] => true
  | _, _ => false
  end.

(** [name in df.columns], [name in df] *)
Definition has_column (df : DataFrame) (name : string) : bool :=
  existsb (String.eqb name) (columns df).

(** Position of the first column called [name]. *)
Fixpoint position (name : string) (cols : list string) : option nat :=
  match cols with
  | [] => None
  | c :: r =>
      if String.eqb name c then Some O
      else option_map S (position name r)
  end.

Fixpoint replace_nth {A : Type} (p : nat) (x : A) (l : list A) : list A :=
  match l, p with
  | [], _ => []
  | _ :: r, O => x :: r
  | y :: r, S p' => y :: replace_nth p' x r
  end.

Fixpoint remove_nth {A : Type} (p : nat) (l : list A) : list A :=
  match l, p with
  | [], _ => []
  | _ :: r, O => r
  | y :: r, S p' => y :: remove_nth p' r
  end.

Definition is_na (c : cell) : bool :=
  match c with
  | CNull => true
  | CNaT => true
  | _ => false
  end.

(** [df.dropna(subset=[name])] *)
Definition dropna (name : string) (df : DataFrame) : result DataFrame :=
  match position name (columns df) with
  | None => Raise (KeyError name)
  | Some p =>
      Ok {| columns := columns df;
            rows := filter (fun r => negb (is_na (nth p (snd r) CNull)))
                           (rows df) |}
  end.

(** [df.set_index(name)] *)
Definition set_index (name : string) (df : DataFrame) : result DataFrame :=
  match position name (columns df) with
  | None => Raise (KeyError name)
  | Some p =>
      Ok {| columns := remove_nth p (columns df);
            rows := map (fun r => (nth p (snd r) CNull, remove_nth p (snd r)))
                        (rows df) |}
  end.

(** Order of index labels for [sort_index]: timestamps ascending, NaT last
    (na_position="last").  The scripts sort after [set_index] on a converted
    column only, where no other label occurs. *)
Definition label_leb (a b : cell) : bool :=
  match a, b with
  | CTime x, CTime y => x <=? y
  | _, CNaT => true
  | CNaT, _ => false
  | _, _ => true
  end.

Fixpoint insert_row (r : row) (sorted : list row) : list row :=
  match sorted with
  | [] => [r]
  | s :: rest =>
      if label_leb (fst r) (fst s) then r :: sorted
      else s :: insert_row r rest
  end.

(** [df.sort_index()], as an insertion sort on the rows.  Rows with equal
    labels keep the order they came in; pandas promises no order among
    them, and no property below depends on it. *)
Definition sort_rows (l : list row) : list row :=
  fold_right insert_row [] l.

Definition sort_index (df : DataFrame) : DataFrame :=
  {| columns := columns df; rows := sort_rows (rows df) |}.

(** [l[:stop]], Python's slice: a negative [stop] counts from the end. *)
Definition slice_to {A : Type} (stop : Z) (l : list A) : list A :=
  if stop <? 0
  then firstn (Z.to_nat (Z.of_nat (List.length l) + stop)) l
  else firstn (Z.to_nat stop) l.

(** [df.iloc[:stop]] *)
Definition iloc_to (stop : Z) (df : DataFrame) : DataFrame :=
  {| columns := columns df; rows := slice_to stop (rows df) |}.

(** [df.rename(columns=mapper)]: labels not in the mapping stay. *)
Definition relabel (mapper : list (string * string)) (c : string) : string :=
  match assoc c mapper with
  | Some v => v
  | None => c
  end.

Definition rename (mapper : list (string * string)) (df : DataFrame)
  : DataFrame :=
  {| columns := map (relabel mapper) (columns df); rows := rows df |}.

Definition rename_map : list (string * string) :=
  [ ("temperature_2m", "Temperature (°C)");
    ("precipitation", "Precipitation (mm)");
    ("windspeed_10m", "Wind Speed (km/h)");
    ("relative_humidity_2m", "Relative Humidity (%)") ].

(** [df.iloc[i]]: one row as a Series, its labels the columns of [df]. *)
Definition Series : Type := list (string * cell).

Definition iloc (i : Z) (df : DataFrame) : result Series :=
  let n := Z.of_nat (List.length (rows df)) in
  let j := if i <? 0 then n + i else i in
  if (0 <=? j) && (j <? n) then
    match nth_error (rows df) (Z.to_nat j) with
    | Some r => Ok (combine (columns df) (snd r))
    | None => Raise IndexError
    end
  else Raise IndexError.

(** [s[key]]: a missing label raises; a label carried by several columns
    gives a Series again. *)
Inductive item : Type :=
| Scalar (c : cell)
| SubSeries (cs : list cell).

Definition getitem (s : Series) (key : string) : result item :=
  match filter (fun kv => String.eqb key (fst kv)) s with
  | [] => Raise (KeyError key)
  | [(_, c)] => Ok (Scalar c)
  | several => Ok (SubSeries (map snd several))
  end.

Fixpoint map_result {A B : Type} (f : A -> result B) (l : list A)
  : result (list B) :=
  match l with
  | [] => Ok []
  | a :: r => (b <- f a ;; bs <- map_result f r ;; Ok (b :: bs))
  end.

Fixpoint positions_from (i : nat) (name : string) (cols : list string)
  : list nat :=
  match cols with
  | [] => []
  | c :: r =>
      if String.eqb name c then i :: positions_from (S i) name r
      else positions_from (S i) name r
  end.

(** [df[[n1, n2, ...]]]: every name must be a column. *)
Definition select_columns (names : list string) (df : DataFrame)
  : result DataFrame :=
  found <- map_result
             (fun n => match positions_from O n (columns df) with
                       | [] => Raise (KeyError n)
                       | ps => Ok ps
                       end) names ;;
  let ps := List.concat found in
  Ok {| columns := map (fun p => nth p (columns df) "") ps;
        rows := map (fun r => (fst r, map (fun p => nth p (snd r) CNull) ps))
                    (rows df) |}.

(** *** pd.to_datetime *)

(** What the parser makes of one value: a timestamp, a missing value (NaT
    under either setting of [errors]), or no date at all. *)
Inductive parsed : Type :=
| Parsed (t : Z)
| Missing
| Unparsable.

Inductive errors_mode : Type := errors_raise | errors_coerce.

Section ToDatetime.

Variable to_datetime_scalar : cell -> parsed.

Definition to_datetime_cell (errors : errors_mode) (c : cell) : result cell :=
  match to_datetime_scalar c with
  | Parsed t => Ok (CTime t)
  | Missing => Ok CNaT
  | Unparsable =>
      match errors with
      | errors_raise => Raise DateParseError
      | errors_coerce => Ok CNaT
      end
  end.

(** [df[name] = pd.to_datetime(df[name], errors=...)] *)
Definition to_datetime_column (errors : errors_mode) (name : string)
           (df : DataFrame) : result DataFrame :=
  match position name (columns df) with
  | None => Raise (KeyError name)
  | Some p =>
      rs <- map_result
              (fun r => c <- to_datetime_cell errors (nth p (snd r) CNull) ;;
                        Ok (fst r, replace_nth p c (snd r)))
              (rows df) ;;
      Ok {| columns := columns df; rows := rs |}
  end.

End ToDatetime.

(** ** The page (Streamlit) *)

Inductive widget : Type :=
| st_error (e : exn)           (* "Failed to fetch weather data: {e}" *)
| st_warning (msg : string)
| st_columns (n : nat)
| st_metric (label value : string)
| st_tabs (names : list string)
| st_line_chart (data : DataFrame)
| st_area_chart (data : DataFrame)
| st_info (msg : string)
| st_markdown (text : string)
| st_caption (text : string).

(** How a script run ends. *)
Inductive ending : Type :=
| Finished
| Stopped                      (* st.stop() *)
| Uncaught (e : exn).

(** A piece of script: the widgets it wrote, and its value or how it
    ended the run. *)
Inductive step (A : Type) : Type :=
| Next (a : A)
| Halt (h : ending).

Arguments Next {A} a.
Arguments Halt {A} h.

Definition ui (A : Type) : Type := (list widget * step A)%type.

Definition ui_bind {A B : Type} (m : ui A) (k : A -> ui B) : ui B :=
  match m with
  | (ws, Next a) => let (ws', s) := k a in ((ws ++ ws')%list, s)
  | (ws, Halt h) => (ws, Halt h)
  end.

Definition emit (w : widget) : ui unit := ([w], Next tt).
Definition st_stop {A : Type} : ui A := ([], Halt Stopped).

(** An exception outside any [try] ends the run. *)
Definition lift {A : Type} (r : result A) : ui A :=
  match r with
  | Ok a => ([], Next a)
  | Raise e => ([], Halt (Uncaught e))
  end.

Declare Scope ui_scope.
Delimit Scope ui_scope with ui.
Notation "x <~ m ;; k" := (ui_bind m (fun x => k))
  (at level 100, m at next level, right associativity) : ui_scope.
Notation "m >> k" := (ui_bind m (fun _ => k))
  (at level 100, right associativity) : ui_scope.

(** The run of a whole script: what is on the page, and how it ended. *)
Definition run (m : ui unit) : list widget * ending :=
  match m with
  | (ws, Next _) => (ws, Finished)
  | (ws, Halt h) => (ws, h)
  end.

(** The exception of a failed call. *)
Definition failure_of {B : Type} (o : http_outcome B) : exn :=
  match o with
  | NoResponse => ConnectionError
  | Response s _ => HTTPError s
  end.

Definition no_data_warning : string :=
  "No data returned. Try clicking another location or reducing the time window.".

(** [js.get("hourly") or {}] *)
Definition hourly_or_empty (js : forecast_json) : hourly_object :=
  match hourly js with
  | Some h => h
  | None => []
  end.

Definition data_source_caption : string :=
  "Data Source: Open‑Meteo.com (Forecast & Geocoding). Map tiles © OpenStreetMap contributors.".

Definition tab_names : list string :=
  ["Temperature"; "Precipitation"; "Wind & Humidity"].

Section Formatting.

(** [f"{x:.Nf}"] for a value taken out of a table; it raises on values
    that are not numbers. *)
Variable format_value : nat -> cell -> result string.

Definition format_item (digits : nat) (v : item) : result string :=
  match v with
  | Scalar c => format_value digits c
  | SubSeries _ => Raise TypeError
  end.

(** [f"{latest[col]:.Nf}<unit>"] *)
Definition metric_text (digits : nat) (unit_text : string)
           (latest : Series) (col : string) : result string :=
  v <- getitem latest col ;;
  s <- format_item digits v ;;
  Ok (s ++ unit_text).

End Formatting.

(** ** The original variant: streamlit_weather_app.py *)

Module V1.

Section Script.

Variable to_datetime_scalar : cell -> parsed.
Variable format_value : nat -> cell -> result string.

Definition fetch_hourly_weather (get : http_outcome forecast_json)
           (hours : Z) : result DataFrame :=
  r <- requests_get get ;;
  raise_for_status r ;;;
  js <- response_json r ;;
  let hourly := hourly_or_empty js in
  df <- pd_DataFrame hourly ;;
  df <- (if has_column df "time" then
           df <- to_datetime_column to_datetime_scalar
                   errors_raise "time" df ;;
           df <- set_index "time" df ;;
           Ok (iloc_to hours df)
         else Ok df) ;;
  Ok (rename rename_map df).

(** The summary row. *)
Definition latest (df : DataFrame) : result Series := iloc 0 df.

Definition summary_cards (df : DataFrame) : ui unit :=
  (latest <~ lift (latest df) ;;
   emit (st_columns 4) >>
   t <~ lift (metric_text format_value 1 " °C" latest "Temperature (°C)") ;;
   emit (st_metric "Temperature (now)" t) >>
   w <~ lift (metric_text format_value 0 " km/h" latest "Wind Speed (km/h)") ;;
   emit (st_metric "Wind Speed (now)" w) >>
   p <~ lift (metric_text format_value 2 " mm" latest "Precipitation (mm)") ;;
   emit (st_metric "Precipitation (now)" p) >>
   h <~ lift (metric_text format_value 0 " %" latest "Relative Humidity (%)") ;;
   emit (st_metric "RH (now)" h))%ui.

Definition charts (df : DataFrame) : ui unit :=
  (emit (st_tabs tab_names) >>
   d1 <~ lift (select_columns ["Temperature (°C)"] df) ;;
   emit (st_line_chart d1) >>
   d2 <~ lift (select_columns ["Precipitation (mm)"] df) ;;
   emit (st_area_chart d2) >>
   d3 <~ lift (select_columns
                 ["Wind Speed (km/h)"; "Relative Humidity (%)"] df) ;;
   emit (st_line_chart d3))%ui.

(** The script from the [try] around the fetch to its last line. *)
Definition weather_section (get : http_outcome forecast_json) (hours : Z)
  : ui unit :=
  match fetch_hourly_weather get hours with
  | Raise e => (emit (st_error e) >> st_stop)%ui
  | Ok df =>
      if df_empty df then (emit (st_warning no_data_warning) >> st_stop)%ui
      else
        (summary_cards df >>
         charts df >>
         emit (st_markdown "---") >>
         emit (st_caption data_source_caption))%ui
  end.

End Script.

End V1.

(** ** The improved variant: streamlit_weather_app_v2.py *)

Module V2.

Section Script.

Variable to_datetime_scalar : cell -> parsed.
Variable format_value : nat -> cell -> result string.

Definition fetch_hourly_weather (get : http_outcome forecast_json)
           (hours : Z) : result DataFrame :=
  r <- requests_get get ;;
  raise_for_status r ;;;
  js <- response_json r ;;
  let hourly := hourly_or_empty js in
  df <- pd_DataFrame hourly ;;
  if negb (has_column df "time") || df_empty df then Ok empty_frame
  else
    df <- to_datetime_column to_datetime_scalar
            errors_coerce "time" df ;;
    df <- dropna "time" df ;;
    df <- set_index "time" df ;;
    let df := sort_index df in
    let df := if 0 <? hours then iloc_to hours df else df in
    let cols_present :=
      filter (fun kv => has_column df (fst kv)) rename_map in
    Ok (rename cols_present df).

(** The summary row. *)
Definition latest (df : DataFrame) : result Series := iloc (-1) df.

(** One guarded card. *)
Definition card (df : DataFrame) (latest : Series) (col label : string)
           (digits : nat) (unit_text : string) : ui unit :=
  if has_column df col then
    (t <~ lift (metric_text format_value digits unit_text latest col) ;;
     emit (st_metric label t))%ui
  else emit (st_metric label "N/A").

Definition summary_cards (df : DataFrame) : ui unit :=
  (latest <~ lift (latest df) ;;
   emit (st_columns 4) >>
   card df latest "Temperature (°C)" "Temperature (latest)" 1 " °C" >>
   card df latest "Wind Speed (km/h)" "Wind Speed (latest)" 0 " km/h" >>
   card df latest "Precipitation (mm)" "Precipitation (latest)" 2 " mm" >>
   card df latest "Relative Humidity (%)" "RH (latest)" 0 " %")%ui.

Definition charts (df : DataFrame) : ui unit :=
  (emit (st_tabs tab_names) >>
   (if has_column df "Temperature (°C)" then
      d1 <~ lift (select_columns ["Temperature (°C)"] df) ;;
      emit (st_line_chart d1)
    else
      emit (st_info "Temperature not available for this location/time.")) >>
   (if has_column df "Precipitation (mm)" then
      d2 <~ lift (select_columns ["Precipitation (mm)"] df) ;;
      emit (st_area_chart d2)
    else
      emit (st_info "Precipitation not available for this location/time.")) >>
   let cols := filter (has_column df)
                 ["Wind Speed (km/h)"; "Relative Humidity (%)"] in
   match cols with
   | [] =>
       emit (st_info "Wind/Humidity not available for this location/time.")
   | _ =>
       d3 <~ lift (select_columns cols df) ;;
       emit (st_line_chart d3)
   end)%ui.

(** The script from the [try] around the fetch to its last line. *)
Definition weather_section (get : http_outcome forecast_json) (hours : Z)
  : ui unit :=
  match fetch_hourly_weather get hours with
  | Raise e => (emit (st_error e) >> st_stop)%ui
  | Ok df =>
      if df_empty df then (emit (st_warning no_data_warning) >> st_stop)%ui
      else
        (summary_cards df >>
         charts df >>
         emit (st_markdown "---") >>
         emit (st_caption data_source_caption))%ui
  end.

End Script.

End V2.

(** ** Instances of the section variables, for evaluation

    The theorems below hold for every date parser and every formatter.  To
    run the scripts on concrete inputs, these instances stand in for pandas
    and Python on the inputs they are used on. *)

Module Instances.

Definition text_of_Z (z : Z) : string :=
  NilZero.string_of_int (Z.to_int z).

Fixpoint zeros (n : nat) : string :=
  match n with
  | O => ""
  | S n' => String "0" (zeros n')
  end.

(** Left-pad with zeros to [width] characters. *)
Definition pad_left (width : nat) (s : string) : string :=
  zeros (width - String.length s) ++ s.

(** [f"{x:.Nf}"] of the decimal [m / 10^e]: round half to even at
    [digits] decimals.  Python rounds the binary double, so the two agree
    on every number but a decimal tie that is not a double. *)
Definition format_decimal (digits : nat) (m : Z) (e : nat) : string :=
  let a := Z.abs m * 10 ^ Z.of_nat digits in
  let d := 10 ^ Z.of_nat e in
  let q := a / d in
  let r := a mod d in
  let q := if (d <? 2 * r) || ((2 * r =? d) && Z.odd q) then q + 1 else q in
  let whole := q / 10 ^ Z.of_nat digits in
  let frac := q mod 10 ^ Z.of_nat digits in
  (if (m <? 0)%Z then "-" else "") ++ text_of_Z whole ++
  match digits with
  | O => ""
  | _ => "." ++ pad_left digits (text_of_Z frac)
  end.

(** The formatter on table values: numbers only. *)
Definition format_value (digits : nat) (c : cell) : result string :=
  match c with
  | CNum m e => Ok (format_decimal digits m e)
  | CStr _ => Raise ValueError
  | _ => Raise TypeError
  end.

(** Coordinates in whole degrees, and their [f"{x:.Nf}"]. *)
Definition degrees : Type := Z.

Definition format_degrees (digits : nat) (x : degrees) : string :=
  format_decimal digits x 0.

(** Timestamps in the format of the forecast API, "YYYY-MM-DDTHH:MM". *)
Definition digit (c : ascii) : option Z :=
  let n := Z.of_N (N_of_ascii c) in
  if (48 <=? n) && (n <=? 57) then Some (n - 48) else None.

Fixpoint number (cs : list ascii) (acc : Z) : option Z :=
  match cs with
  | [] => Some acc
  | c :: r =>
      match digit c with
      | Some d => number r (10 * acc + d)
      | None => None
      end
  end.

Definition is_leap (y : Z) : bool :=
  ((y mod 4 =? 0) && negb (y mod 100 =? 0)) || (y mod 400 =? 0).

Definition days_in_month (y m : Z) : Z :=
  if m =? 2 then (if is_leap y then 29 else 28)
  else if (m =? 4) || (m =? 6) || (m =? 9) || (m =? 11) then 30
  else 31.

(** Days from 1970-01-01 to the civil date. *)
Definition days_from_civil (y m d : Z) : Z :=
  let y := if m <=? 2 then y - 1 else y in
  let era := y / 400 in
  let yoe := y - era * 400 in
  let mp := if 2 <? m then m - 3 else m + 9 in
  let doy := (153 * mp + 2) / 5 + d - 1 in
  let doe := yoe * 365 + yoe / 4 - yoe / 100 + doy in
  era * 146097 + doe - 719468.

Definition iso_minute (s : string) : option Z :=
  match list_ascii_of_string s with
  | [y1; y2; y3; y4; "-"%char; m1; m2; "-"%char; d1; d2; "T"%char;
     h1; h2; ":"%char; n1; n2] =>
      match number [y1; y2; y3; y4] 0, number [m1; m2] 0,
            number [d1; d2] 0, number [h1; h2] 0, number [n1; n2] 0 with
      | Some y, Some m, Some d, Some h, Some n =>
          if (1700 <=? y) && (y <=? 2200) && (1 <=? m) && (m <=? 12)
             && (1 <=? d) && (d <=? days_in_month y m)
             && (h <=? 23) && (n <=? 59)
          then Some ((((days_from_civil y m d * 24 + h) * 60 + n) * 60)
                     * 1000000000)
          else None
      | _, _, _, _, _ => None
      end
  | _ => None
  end.

(** The date parser on: null, a string in the API's format, a string that
    holds no date.  It is used on no other value. *)
Definition to_datetime_scalar (c : cell) : parsed :=
  match c with
  | CNull => Missing
  | CNaT => Missing
  | CTime t => Parsed t
  | CStr s =>
      match iso_minute s with
      | Some t => Parsed t
      | None => Unparsable
      end
  | _ => Unparsable
  end.

(** A forecast answer with status 200 and the given ["hourly"] object. *)
Definition answer (h : hourly_object) : http_outcome forecast_json :=
  Response 200 (Some {| hourly := Some h |}).

End Instances.

(** ** Notions the properties are stated with *)

(** The index of a table, top to bottom. *)
Definition index (df : DataFrame) : list cell := map fst (rows df).

(** The array under ["time"] in the upstream object. *)
Definition time_array (h : hourly_object) : list cell :=
  match assoc "time" h with
  | Some arr => arr
  | None => []
  end.

(** The timestamps of the cells that parse, in upstream order. *)
Definition parsed_times (parse : cell -> parsed) (arr : list cell) : list Z :=
  flat_map (fun c => match parse c with Parsed t => [t] | _ => [] end) arr.

(** What a cell of the time column becomes when nothing raises. *)
Definition coerced (parse : cell -> parsed) (c : cell) : cell :=
  match parse c with
  | Parsed t => CTime t
  | _ => CNaT
  end.

(** The timestamp an index label carries. *)
Definition time_of (c : cell) : Z :=
  match c with
  | CTime t => t
  | _ => 0
  end.

Definition is_time (c : cell) : bool :=
  match c with
  | CTime _ => true
  | _ => false
  end.



(** Rows compared by the timestamps of their labels. *)
Definition by_time (a b : row) : Prop :=
  time_of (fst a) <= time_of (fst b).

Definition timed (r : row) : Prop := is_time (fst r) = true.

(** A row after its cell at position [p] is converted. *)
Definition converted_row (parse : cell -> parsed) (p : nat) (r : row) : row :=
  (fst r, replace_nth p (coerced parse (nth p (snd r) CNull)) (snd r)).

(** The length of the first array of the upstream object. *)
Definition height (d : hourly_object) : nat :=
  match d with
  | [] => O
  | (_, first) :: _ => List.length first
  end.

(** The rows of the upstream table whose time cell parses, each under its
    timestamp and without the time cell, in upstream order. *)
Definition parsed_rows (parse : cell -> parsed) (d : hourly_object)
  : list row :=
  match position "time" (map fst d) with
  | None => []
  | Some p =>
      flat_map
        (fun i =>
           match parse (nth i (time_array d) CNull) with
           | Parsed t =>
               [(CTime t,
                 remove_nth p (map (fun kv => nth i (snd kv) CNull) d))]
           | _ => []
           end)
        (seq 0 (height d))
  end.

(** All rows of the upstream table, each under its converted time cell and
    without the time cell, in upstream order. *)
Definition converted_rows (parse : cell -> parsed) (d : hourly_object)
  : list row :=
  match position "time" (map fst d) with
  | None => []
  | Some p =>
      map (fun i =>
             (coerced parse (nth i (time_array d) CNull),
              remove_nth p (map (fun kv => nth i (snd kv) CNull) d)))
          (seq 0 (height d))
  end.

Definition is_unparsable (r : parsed) : bool :=
  match r with
  | Unparsable => true
  | _ => false
  end.

(** A list of names without the first occurrence of [name]. *)
Fixpoint drop_first (name : string) (l : list string) : list string :=
  match l with
  | [] => []
  | c :: r => if String.eqb name c then r else c :: drop_first name r
  end.

(** The four variables of the request, and the label each is shown under. *)
Definition raw_keys : list string := map fst rename_map.
Definition display_label (c : string) : string := relabel rename_map c.

(** The keys of the upstream object. *)
Definition upstream_keys (h : hourly_object) : list string := map fst h.

(** The ["hourly"] object of an answer; empty when there is none. *)
Definition upstream (get : http_outcome forecast_json) : hourly_object :=
  match get with
  | Response _ (Some js) => hourly_or_empty js
  | _ => []
  end.

(** The columns the summary cards read, with the labels of the cards of
    the improved variant. *)
Definition card_labels : list (string * string) :=
  [ ("Temperature (°C)", "Temperature (latest)");
    ("Wind Speed (km/h)", "Wind Speed (latest)");
    ("Precipitation (mm)", "Precipitation (latest)");
    ("Relative Humidity (%)", "RH (latest)") ].

(** ** The location selector (top-level code of both scripts) *)

(** [v[key]] for a string key: only dicts can be indexed by a string. *)
Definition py_item (v : json) (key : string) : result json :=
  match v with
  | JObj fields =>
      match assoc key fields with
      | Some x => Ok x
      | None => Raise (KeyError key)
      end
  | _ => Raise TypeError
  end.

(** [key in v] for a dict. *)
Definition py_in (key : string) (fields : list (string * json)) : bool :=
  match assoc key fields with
  | Some _ => true
  | None => false
  end.

Definition DEFAULT_LAT : json := JNum 375665 4.
Definition DEFAULT_LON : json := JNum 1269780 4.

Module Selector.

(** streamlit_weather_app.py: [map_state] is what [st_folium] returned. *)
Definition original (map_state : json) : result (json * json) :=
  match map_state with
  | JObj fields =>
      if py_in "last_clicked" fields
      then
        last <- py_item map_state "last_clicked" ;;
        if truthy last then
          lat <- py_get last "lat" ;;
          lon <- py_get last "lng" ;;
          Ok (lat, lon)
        else Ok (DEFAULT_LAT, DEFAULT_LON)
      else Ok (DEFAULT_LAT, DEFAULT_LON)
  | _ => Ok (DEFAULT_LAT, DEFAULT_LON)
  end.

(** streamlit_weather_app_v2.py *)
Definition improved (map_state : json) : result (json * json) :=
  match map_state with
  | JObj _ =>
      last <- py_get map_state "last_clicked" ;;
      if truthy last then
        c1 <- py_item map_state "last_clicked" ;;
        lat <- py_item c1 "lat" ;;
        c2 <- py_item map_state "last_clicked" ;;
        lon <- py_item c2 "lng" ;;
        Ok (lat, lon)
      else Ok (DEFAULT_LAT, DEFAULT_LON)
  | _ => Ok (DEFAULT_LAT, DEFAULT_LON)
  end.

End Selector.

(** The click a map state carries: the value under ["last_clicked"] of a
    dict, when it is truthy. *)
Definition last_click (map_state : json) : option json :=
  match map_state with
  | JObj fields =>
      match assoc "last_clicked" fields with
      | Some v => if truthy v then Some v else None
      | None => None
      end
  | _ => None
  end.

(** Every row has one cell per column. *)
Definition rectangular (df : DataFrame) : Prop :=
  Forall (fun r : row => List.length (snd r) = List.length (columns df))
         (rows df).

(** The columns the summary cards and the charts read. *)
Definition display_columns : list string := map fst card_labels.

(** An exception the formatter raises on some value, or the [TypeError] of
    formatting a label that several columns carry. *)
Definition formatting_error (fmt : nat -> cell -> result string) (e : exn)
  : Prop :=
  e = TypeError \/ exists n c, fmt n c = Raise e.

(** A field of a geocoding result that is missing, null or a string, and
    its text. *)
Definition textual (fields : list (string * json)) (key : string) : Prop :=
  match assoc key fields with
  | None => True
  | Some JNull => True
  | Some (JStr _) => True
  | Some _ => False
  end.

Definition field_text (fields : list (string * json)) (key : string)
  : string :=
  match assoc key fields with
  | Some (JStr s) => s
  | _ => ""
  end.

Definition nonempty (s : string) : bool := negb (String.eqb s "").

(** A piece of script that, when it ends the run, ends it with an
    exception of formatting. *)
Definition fails_only_formatting {A : Type}
           (fmt : nat -> cell -> result string) (m : ui A) : Prop :=
  forall ws h, m = (ws, Halt h) ->
               exists e, h = Uncaught e /\ formatting_error fmt e.

(** A piece of script that never ends the run. *)
Definition completes {A : Type} (m : ui A) : Prop :=
  exists ws a, m = (ws, Next a).

(** * Properties *)

(** ** The geocoder *)

Section GeocoderFacts.

Variable float : Type.
Variable format_f : nat -> float -> string.

(** [reverse_geocode] is total: whatever the lookup does, the result is
    the label composed in the [try] block or the coordinate text. *)
Lemma reverse_geocode_cases (get : http_outcome json) (lat lon : float) :
  (exists label, reverse_geocode_try get = Ok (Some label) /\
                 reverse_geocode float format_f get lat lon = label) \/
  reverse_geocode float format_f get lat lon
  = coordinate_text float format_f lat lon.
Proof.
  unfold reverse_geocode.
  destruct (reverse_geocode_try get) as [[label|]|e].
  - left. exists label. split; reflexivity.
  - right. reflexivity.
  - right. reflexivity.
Qed.

Lemma append_not_empty (a b : string) : b <> "" -> (a ++ b)%string <> "".
Proof.
  intros Hb. destruct a as [|c a]; simpl.
  - exact Hb.
  - discriminate.
Qed.

(** The coordinate text is never empty. *)
Lemma coordinate_text_not_empty (lat lon : float) :
  coordinate_text float format_f lat lon <> "".
Proof.
  unfold coordinate_text. apply append_not_empty. discriminate.
Qed.

(** X12: a failed lookup, a body that is not JSON, and an empty or missing
    result list all give the coordinate text. *)
Lemma reverse_geocode_fallback (get : http_outcome json) (lat lon : float) :
  (call_failed get = true \/
   (exists s, get = Response s None) \/
   (exists s fields, get = Response s (Some (JObj fields)) /\
                     (assoc "results" fields = None \/
                      assoc "results" fields = Some (JArr [])))) ->
  reverse_geocode float format_f get lat lon
  = coordinate_text float format_f lat lon.
Proof.
  intros [Hf | [[s ->] | [s [fields [-> Hr]]]]].
  - destruct get as [|s b]; [reflexivity|].
    simpl in Hf. unfold reverse_geocode, reverse_geocode_try. simpl.
    unfold raise_for_status. simpl. rewrite Hf. reflexivity.
  - unfold reverse_geocode, reverse_geocode_try. simpl.
    unfold raise_for_status. simpl.
    destruct (is_error_status s); reflexivity.
  - assert (Hget : py_get (py_or (JObj fields) (JObj [])) "results"
                   = Ok (match assoc "results" fields with
                         | Some x => x
                         | None => JNull
                         end)).
    { destruct fields; reflexivity. }
    unfold reverse_geocode, reverse_geocode_try.
    cbn [requests_get bind]. unfold raise_for_status.
    cbn [status_code].
    destruct (is_error_status s); [reflexivity|].
    cbn [bind response_json parsed_body]. rewrite Hget.
    destruct Hr as [-> | ->]; reflexivity.
Qed.

End GeocoderFacts.

(** C3 (the code departs from the claim): a lookup that answers with one
    result carrying no name, region or country makes [reverse_geocode]
    return the empty string, where the claim promises a non-empty one. *)
Theorem reverse_geocode_empty_label :
  reverse_geocode Instances.degrees Instances.format_degrees
    (Response 200 (Some (JObj [("results", JArr [JObj []])]))) 10 20
  = "".
Proof. reflexivity. Qed.

(** Scenario D of the specification: a lookup that times out. *)
Example reverse_geocode_timeout :
  reverse_geocode Instances.degrees Instances.format_degrees NoResponse 10 20
  = "10.000, 20.000".
Proof. reflexivity. Qed.

Example reverse_geocode_label :
  reverse_geocode Instances.degrees Instances.format_degrees
    (Response 200
       (Some (JObj [("results",
                     JArr [JObj [("name", JStr "Seoul");
                                 ("admin1", JNull);
                                 ("country", JStr "South Korea")]])])))
    38 127
  = "Seoul, South Korea".
Proof. reflexivity. Qed.

(** ** A failed forecast call *)

Lemma failed_call_raises {B : Type} (get : http_outcome B) :
  call_failed get = true ->
  (r <- requests_get get ;; raise_for_status r ;;; Ok r)
  = Raise (failure_of get).
Proof.
  destruct get as [|s b]; simpl; intros H; [reflexivity|].
  unfold raise_for_status. simpl. rewrite H. reflexivity.
Qed.

(** C2: when the forecast call fails, [fetch_hourly_weather] raises, and the
    page holds the error message and nothing else, the run being stopped;
    in both variants. *)
Theorem forecast_failure_is_surfaced
        (parse : cell -> parsed) (fmt : nat -> cell -> result string)
        (get : http_outcome forecast_json) (hours : Z) :
  call_failed get = true ->
  (V1.fetch_hourly_weather parse get hours = Raise (failure_of get) /\
   run (V1.weather_section parse fmt get hours)
   = ([st_error (failure_of get)], Stopped)) /\
  (V2.fetch_hourly_weather parse get hours = Raise (failure_of get) /\
   run (V2.weather_section parse fmt get hours)
   = ([st_error (failure_of get)], Stopped)).
Proof.
  intros H.
  assert (H1 : V1.fetch_hourly_weather parse get hours
               = Raise (failure_of get)).
  { unfold V1.fetch_hourly_weather.
    destruct get as [|s b]; simpl in *; [reflexivity|].
    unfold raise_for_status. simpl. rewrite H. reflexivity. }
  assert (H2 : V2.fetch_hourly_weather parse get hours
               = Raise (failure_of get)).
  { unfold V2.fetch_hourly_weather.
    destruct get as [|s b]; simpl in *; [reflexivity|].
    unfold raise_for_status. simpl. rewrite H. reflexivity. }
  unfold V1.weather_section, V2.weather_section.
  rewrite H1, H2. repeat split; reflexivity.
Qed.

Lemma forecast_failure_is_surfaced_witness :
  call_failed (Response 500 (@None forecast_json)) = true /\
  run (V2.weather_section Instances.to_datetime_scalar Instances.format_value
         (Response 500 None) 48)
  = ([st_error (HTTPError 500)], Stopped).
Proof.
  split; [reflexivity|].
  apply (forecast_failure_is_surfaced Instances.to_datetime_scalar
           Instances.format_value (Response 500 None) 48).
  reflexivity.
Defined.

(** ** Lists and tables *)

Lemma existsb_eqb_In (name : string) (l : list string) :
  existsb (String.eqb name) l = true <-> In name l.
Proof.
  rewrite existsb_exists. split.
  - intros [x [Hin Heq]]. apply String.eqb_eq in Heq. subst. exact Hin.
  - intros Hin. exists name. split; [exact Hin|apply String.eqb_refl].
Qed.

Lemma existsb_eqb_not_In (name : string) (l : list string) :
  existsb (String.eqb name) l = false <-> ~ In name l.
Proof.
  rewrite <- existsb_eqb_In. destruct (existsb _ l); split; intros H;
    try discriminate; try reflexivity; try (intros H'; discriminate).
  exfalso. apply H. reflexivity.
Qed.

Lemma position_Some_In (name : string) (l : list string) :
  In name l -> exists p, position name l = Some p.
Proof.
  induction l as [|c l IH]; simpl; [intros []|].
  intros Hin. destruct (String.eqb name c) eqn:E.
  - exists O. reflexivity.
  - destruct Hin as [<- | Hin]; [rewrite String.eqb_refl in E; discriminate|].
    destruct (IH Hin) as [p Hp]. exists (S p). rewrite Hp. reflexivity.
Qed.

Lemma position_None (name : string) (l : list string) :
  ~ In name l -> position name l = None.
Proof.
  induction l as [|c l IH]; simpl; [reflexivity|].
  intros Hn. destruct (String.eqb name c) eqn:E.
  - apply String.eqb_eq in E. subst. exfalso. apply Hn. left. reflexivity.
  - rewrite IH; [reflexivity|]. intros H. apply Hn. right. exact H.
Qed.

Lemma position_remove (name : string) (l : list string) (p : nat) :
  position name l = Some p -> remove_nth p l = drop_first name l.
Proof.
  revert p. induction l as [|c l IH]; simpl; intros p H; [discriminate|].
  destruct (String.eqb name c).
  - inversion H. reflexivity.
  - destruct (position name l) as [q|]; [|discriminate].
    inversion H. simpl. rewrite (IH q); reflexivity.
Qed.

(** The cell at the position of [name] in row [i] is element [i] of the
    array under [name]. *)
Lemma position_assoc (name : string) (d : hourly_object) (p i : nat) :
  position name (map fst d) = Some p ->
  exists arr, assoc name d = Some arr /\
              nth p (map (fun kv => nth i (snd kv) CNull) d) CNull
              = nth i arr CNull /\
              (p < List.length d)%nat /\
              nth_error d p = Some (nth p (map fst d) "", arr).
Proof.
  revert p. induction d as [|[k a] d IH]; simpl; intros p H; [discriminate|].
  destruct (String.eqb name k) eqn:E.
  - inversion H. subst. exists a. simpl.
    repeat split; [lia].
  - destruct (position name (map fst d)) as [q|] eqn:Hq; [|discriminate].
    inversion H. subst. destruct (IH q eq_refl) as [arr [H1 [H2 [H3 H4]]]].
    exists arr. simpl. repeat split; try assumption. lia.
Qed.

Lemma map_nth_all {A : Type} (l : list A) (d : A) :
  map (fun i => nth i l d) (seq 0 (List.length l)) = l.
Proof.
  induction l as [|a l IH]; simpl; [reflexivity|].
  f_equal. rewrite <- seq_shift, map_map. exact IH.
Qed.

Lemma map_result_Ok {A B : Type} (f : A -> result B) (g : A -> B)
      (l : list A) :
  (forall a, In a l -> f a = Ok (g a)) -> map_result f l = Ok (map g l).
Proof.
  induction l as [|a l IH]; simpl; intros H; [reflexivity|].
  rewrite (H a (or_introl eq_refl)). simpl.
  rewrite IH; [reflexivity|]. intros b Hb. apply H. right. exact Hb.
Qed.

Lemma map_result_Raise {A B : Type} (f : A -> result B) (l : list A)
      (e : exn) :
  (forall a, In a l -> f a = Raise e \/ exists b, f a = Ok b) ->
  (exists a, In a l /\ f a = Raise e) ->
  map_result f l = Raise e.
Proof.
  induction l as [|a l IH]; simpl; intros Hall [x [Hin Hx]]; [destruct Hin|].
  destruct (Hall a (or_introl eq_refl)) as [Ha | [b Ha]]; rewrite Ha; simpl.
  - reflexivity.
  - destruct Hin as [<- | Hin]; [congruence|].
    rewrite IH; [reflexivity| |].
    + intros y Hy. apply Hall. right. exact Hy.
    + exists x. split; assumption.
Qed.

(** What [pd.DataFrame] builds: arrays of one length [n], a column per
    key, a row per position. *)
Lemma pd_DataFrame_Ok (d : hourly_object) (df : DataFrame) :
  pd_DataFrame d = Ok df ->
  Forall (fun kv => List.length (snd kv) = height d) d /\
  df = {| columns := map fst d; rows := map (row_at d) (seq 0 (height d)) |}.
Proof.
  unfold pd_DataFrame. destruct d as [|[k a] others].
  - intros H. inversion H. split; [constructor|reflexivity].
  - destruct (forallb _ others) eqn:E; [|discriminate].
    intros H. inversion H. split; [|reflexivity].
    constructor; [reflexivity|]. cbn [height].
    rewrite forallb_forall in E. apply Forall_forall. intros kv Hin.
    apply Nat.eqb_eq. apply E. exact Hin.
Qed.

Lemma row_at_length (d : hourly_object) (i : nat) :
  List.length (snd (row_at d i)) = List.length d.
Proof. unfold row_at. simpl. apply length_map. Qed.

(** The cells under ["time"], row by row, are the upstream array. *)
Lemma time_cells (d : hourly_object) (n p : nat) :
  Forall (fun kv => List.length (snd kv) = n) d ->
  position "time" (map fst d) = Some p ->
  map (fun r : row => nth p (snd r) CNull) (map (row_at d) (seq 0 n))
  = time_array d.
Proof.
  intros Hlen Hp. rewrite map_map. unfold time_array.
  destruct (position_assoc "time" d p O Hp) as [arr [Ha [_ [_ Hnth]]]].
  rewrite Ha.
  assert (Hn : List.length arr = n).
  { rewrite Forall_forall in Hlen.
    apply (Hlen (nth p (map fst d) "", arr)).
    apply nth_error_In with (n := p). exact Hnth. }
  subst n. rewrite <- (map_nth_all arr CNull) at 2.
  apply map_ext. intros i. unfold row_at. simpl.
  destruct (position_assoc "time" d p i Hp) as [arr' [Ha' [Hc _]]].
  rewrite Ha in Ha'. inversion Ha'. subst. exact Hc.
Qed.

Lemma nth_replace_nth {A : Type} (p : nat) (x d : A) (l : list A) :
  (p < List.length l)%nat -> nth p (replace_nth p x l) d = x.
Proof.
  revert p. induction l as [|a l IH]; simpl; intros p H; [lia|].
  destruct p as [|p]; simpl; [reflexivity|]. apply IH. lia.
Qed.

Lemma map_filter_swap {A B : Type} (f : A -> B) (keep : B -> bool)
      (l : list A) :
  map f (filter (fun a => keep (f a)) l) = filter keep (map f l).
Proof.
  induction l as [|a l IH]; simpl; [reflexivity|].
  destruct (keep (f a)); simpl; rewrite IH; reflexivity.
Qed.

Lemma filter_coerced (parse : cell -> parsed) (arr : list cell) :
  filter (fun c => negb (is_na c)) (map (coerced parse) arr)
  = map CTime (parsed_times parse arr).
Proof.
  induction arr as [|c arr IH]; simpl; [reflexivity|].
  unfold coerced at 1 2. destruct (parse c); simpl; rewrite IH; reflexivity.
Qed.

Lemma relabel_present (m : list (string * string)) (cols : list string)
      (c : string) :
  In c cols ->
  relabel (filter (fun kv => existsb (String.eqb (fst kv)) cols) m) c
  = relabel m c.
Proof.
  intros Hin. unfold relabel. induction m as [|[k v] m IH]; [reflexivity|].
  cbn [filter fst]. destruct (existsb (String.eqb k) cols) eqn:E.
  - cbn [assoc]. destruct (String.eqb c k); [reflexivity|exact IH].
  - cbn [assoc]. destruct (String.eqb c k) eqn:Eck; [|exact IH].
    apply String.eqb_eq in Eck. subst k.
    apply existsb_eqb_not_In in E. contradiction.
Qed.

(** Renaming with the entries whose key is a column is renaming with the
    whole mapping. *)
Lemma rename_present (m : list (string * string)) (df : DataFrame) :
  rename (filter (fun kv => has_column df (fst kv)) m) df = rename m df.
Proof.
  unfold rename, has_column. f_equal.
  apply map_ext_in. intros c Hc. apply relabel_present. exact Hc.
Qed.

Section Conversion.

Variable parse : cell -> parsed.

Lemma to_datetime_cell_coerce (c : cell) :
  to_datetime_cell parse errors_coerce c = Ok (coerced parse c).
Proof.
  unfold to_datetime_cell, coerced. destruct (parse c); reflexivity.
Qed.

Lemma to_datetime_cell_raise (c : cell) :
  to_datetime_cell parse errors_raise c
  = match parse c with
    | Unparsable => Raise DateParseError
    | _ => Ok (coerced parse c)
    end.
Proof.
  unfold to_datetime_cell, coerced. destruct (parse c); reflexivity.
Qed.

Lemma to_datetime_column_coerce (name : string) (df : DataFrame) (p : nat) :
  position name (columns df) = Some p ->
  to_datetime_column parse errors_coerce name df
  = Ok {| columns := columns df;
          rows := map (converted_row parse p) (rows df) |}.
Proof.
  intros Hp. unfold to_datetime_column. rewrite Hp.
  rewrite (map_result_Ok _ (converted_row parse p)); [reflexivity|].
  intros r _. rewrite to_datetime_cell_coerce. reflexivity.
Qed.

(** With [errors="raise"]: one cell that is no date fails the column;
    otherwise every cell is converted. *)
Lemma to_datetime_column_raise (name : string) (df : DataFrame) (p : nat) :
  position name (columns df) = Some p ->
  to_datetime_column parse errors_raise name df
  = if existsb (fun r => match parse (nth p (snd r) CNull) with
                         | Unparsable => true
                         | _ => false
                         end) (rows df)
    then Raise DateParseError
    else Ok {| columns := columns df;
               rows := map (converted_row parse p) (rows df) |}.
Proof.
  intros Hp. unfold to_datetime_column. rewrite Hp.
  match goal with
  | |- context [existsb ?f (rows df)] =>
      destruct (existsb f (rows df)) eqn:E
  end.
  - rewrite (map_result_Raise _ _ DateParseError); [reflexivity| |].
    + intros r _. rewrite to_datetime_cell_raise.
      destruct (parse (nth p (snd r) CNull)); simpl; eauto.
    + apply existsb_exists in E. destruct E as [r [Hin Hr]].
      exists r. split; [exact Hin|]. rewrite to_datetime_cell_raise.
      destruct (parse (nth p (snd r) CNull)); try discriminate.
      reflexivity.
  - rewrite (map_result_Ok _ (converted_row parse p)); [reflexivity|].
    intros r Hin. rewrite to_datetime_cell_raise.
    destruct (parse (nth p (snd r) CNull)) eqn:Er; try reflexivity.
    exfalso. assert (Ht : existsb
      (fun r => match parse (nth p (snd r) CNull) with
                | Unparsable => true | _ => false end) (rows df) = true).
    { apply existsb_exists. exists r. split; [exact Hin|].
      rewrite Er. reflexivity. }
    congruence.
Qed.

(** The converted time cells of a freshly built table. *)
Lemma converted_time_cells (d : hourly_object) (n p : nat) :
  Forall (fun kv => List.length (snd kv) = n) d ->
  position "time" (map fst d) = Some p ->
  map (fun r : row => nth p (snd r) CNull)
      (map (converted_row parse p) (map (row_at d) (seq 0 n)))
  = map (coerced parse) (time_array d).
Proof.
  intros Hlen Hp. rewrite <- (time_cells d n p Hlen Hp).
  rewrite !map_map. apply map_ext. intros i.
  unfold converted_row. cbn [snd].
  apply nth_replace_nth. rewrite row_at_length.
  destruct (position_assoc "time" d p i Hp) as [_ [_ [_ [H _]]]].
  exact H.
Qed.

End Conversion.

(** ** Sorting by index *)

Lemma insert_row_perm (r : row) (l : list row) :
  Permutation (insert_row r l) (r :: l).
Proof.
  induction l as [|s l IH]; simpl; [apply Permutation_refl|].
  destruct (label_leb (fst r) (fst s)); [apply Permutation_refl|].
  apply Permutation_trans with (s :: r :: l).
  - apply perm_skip. exact IH.
  - apply perm_swap.
Qed.

Lemma sort_rows_perm (l : list row) : Permutation (sort_rows l) l.
Proof.
  induction l as [|r l IH]; simpl; [apply Permutation_refl|].
  apply Permutation_trans with (r :: sort_rows l).
  - apply insert_row_perm.
  - apply perm_skip. exact IH.
Qed.

Lemma sort_rows_length (l : list row) :
  List.length (sort_rows l) = List.length l.
Proof. apply Permutation_length. apply sort_rows_perm. Qed.




Lemma timed_labels (l : list row) (ts : list Z) :
  map fst l = map CTime ts -> Forall timed l.
Proof.
  revert ts. induction l as [|r l IH]; intros ts H; [constructor|].
  destruct ts as [|t ts]; [discriminate|]. simpl in H. inversion H.
  constructor; [|eapply IH; eassumption].
  unfold timed. rewrite H1. reflexivity.
Qed.




Lemma In_firstn {A : Type} (n : nat) (l : list A) (x : A) :
  In x (firstn n l) -> In x l.
Proof.
  intros H. rewrite <- (firstn_skipn n l). apply in_or_app. left. exact H.
Qed.


Lemma slice_to_firstn {A : Type} (stop : Z) (l : list A) :
  exists n, slice_to stop l = firstn n l.
Proof. unfold slice_to. destruct (stop <? 0); eauto. Qed.

Lemma slice_to_length {A : Type} (stop : Z) (l : list A) :
  0 <= stop ->
  Z.of_nat (List.length (slice_to stop l))
  = Z.min stop (Z.of_nat (List.length l)).
Proof.
  intros H. unfold slice_to. destruct (stop <? 0) eqn:E; [lia|].
  rewrite length_firstn. lia.
Qed.


(** ** The improved variant, step by step *)

Lemma remove_nth_replace_nth {A : Type} (p : nat) (x : A) (l : list A) :
  remove_nth p (replace_nth p x l) = remove_nth p l.
Proof.
  revert p. induction l as [|a l IH]; intros [|p]; simpl; try reflexivity.
  rewrite IH. reflexivity.
Qed.

Section Improved.

Variable parse : cell -> parsed.

(** The steps between [pd.DataFrame] and [return] on a table with a
    time column at position [p]. *)
Lemma V2_steps (df0 : DataFrame) (p : nat) (hours : Z) :
  position "time" (columns df0) = Some p ->
  let kept :=
    map (fun r : row => (nth p (snd r) CNull, remove_nth p (snd r)))
        (filter (fun r : row => negb (is_na (nth p (snd r) CNull)))
                (map (converted_row parse p) (rows df0))) in
  (df <- to_datetime_column parse errors_coerce "time" df0 ;;
   df <- dropna "time" df ;;
   df <- set_index "time" df ;;
   let df := sort_index df in
   let df := if 0 <? hours then iloc_to hours df else df in
   let cols_present :=
     filter (fun kv => has_column df (fst kv)) rename_map in
   Ok (rename cols_present df))
  = Ok {| columns := map display_label (drop_first "time" (columns df0));
          rows := if 0 <? hours then slice_to hours (sort_rows kept)
                  else sort_rows kept |}.
Proof.
  intros Hp kept.
  rewrite (to_datetime_column_coerce parse "time" df0 p Hp).
  cbn [bind]. unfold dropna. cbn [columns rows]. rewrite Hp.
  cbn [bind]. unfold set_index. cbn [columns rows]. rewrite Hp.
  cbn [bind]. cbv zeta. rewrite rename_present.
  rewrite (position_remove "time" (columns df0) p Hp).
  fold kept. destruct (0 <? hours); reflexivity.
Qed.

(** On a freshly built table, the kept rows are the parsed rows. *)
Lemma kept_rows_parsed (d : hourly_object) (p : nat) :
  Forall (fun kv => List.length (snd kv) = height d) d ->
  position "time" (map fst d) = Some p ->
  map (fun r : row => (nth p (snd r) CNull, remove_nth p (snd r)))
      (filter (fun r : row => negb (is_na (nth p (snd r) CNull)))
              (map (converted_row parse p)
                   (map (row_at d) (seq 0 (height d)))))
  = parsed_rows parse d.
Proof.
  intros Hlen Hp. unfold parsed_rows. rewrite Hp.
  assert (Hcell : forall i,
             nth p (snd (converted_row parse p (row_at d i))) CNull
             = coerced parse (nth i (time_array d) CNull)).
  { intros i. unfold converted_row. cbn [snd].
    destruct (position_assoc "time" d p i Hp) as [arr [Ha [Hc [Hlt _]]]].
    rewrite nth_replace_nth by (rewrite row_at_length; exact Hlt).
    unfold row_at. cbn [snd]. rewrite Hc. unfold time_array.
    rewrite Ha. reflexivity. }
  induction (seq 0 (height d)) as [|i l IH]; [reflexivity|].
  cbn [map filter flat_map]. rewrite Hcell.
  unfold coerced at 1.
  destruct (parse (nth i (time_array d) CNull)) eqn:E;
    cbn [is_na negb app map]; rewrite ?IH; try reflexivity.
  f_equal. rewrite Hcell. unfold coerced. rewrite E.
  unfold converted_row. cbn [snd].
  rewrite remove_nth_replace_nth. reflexivity.
Qed.

(** The labels of the parsed rows are the parsed timestamps. *)
Lemma parsed_rows_index (d : hourly_object) (df0 : DataFrame) :
  pd_DataFrame d = Ok df0 ->
  In "time" (map fst d) ->
  map fst (parsed_rows parse d)
  = map CTime (parsed_times parse (time_array d)).
Proof.
  intros Hdf Hin. destruct (pd_DataFrame_Ok d df0 Hdf) as [Hlen _].
  destruct (position_Some_In "time" (map fst d) Hin) as [p Hp].
  rewrite <- (kept_rows_parsed d p Hlen Hp).
  rewrite map_map. cbn [fst].
  rewrite (map_filter_swap (fun r : row => nth p (snd r) CNull)
                           (fun c => negb (is_na c))).
  rewrite (converted_time_cells parse d (height d) p Hlen Hp).
  apply filter_coerced.
Qed.

End Improved.

Lemma slice_to_nil {A : Type} (stop : Z) : slice_to stop (@nil A) = [].
Proof. unfold slice_to. destruct (stop <? 0); apply firstn_nil. Qed.

Lemma has_column_position (df : DataFrame) (name : string) :
  has_column df name = true ->
  exists p, position name (columns df) = Some p.
Proof.
  intros H. apply position_Some_In. apply existsb_eqb_In. exact H.
Qed.

Section ImprovedFetch.

Variable parse : cell -> parsed.

(** What the improved [fetch_hourly_weather] returns on an answer whose
    table can be built. *)
Lemma V2_fetch_Ok (s : Z) (js : forecast_json) (hours : Z)
      (df0 : DataFrame) :
  is_error_status s = false ->
  pd_DataFrame (hourly_or_empty js) = Ok df0 ->
  let d := hourly_or_empty js in
  let kept := sort_rows (parsed_rows parse d) in
  V2.fetch_hourly_weather parse (Response s (Some js)) hours
  = Ok {| columns :=
            if negb (has_column df0 "time") || df_empty df0 then []
            else map display_label (drop_first "time" (map fst d));
          rows := if 0 <? hours then slice_to hours kept else kept |}.
Proof.
  intros Hs Hdf d kept. unfold V2.fetch_hourly_weather.
  cbn [requests_get bind]. unfold raise_for_status. cbn [status_code].
  rewrite Hs. cbn [bind response_json parsed_body]. cbv zeta.
  fold d. fold d in Hdf. rewrite Hdf. cbn [bind].
  destruct (pd_DataFrame_Ok d df0 Hdf) as [Hlen Heq].
  destruct (has_column df0 "time") eqn:Ht.
  - destruct (has_column_position df0 "time" Ht) as [p Hp].
    assert (Hp' : position "time" (map fst d) = Some p).
    { rewrite Heq in Hp. exact Hp. }
    destruct (df_empty df0) eqn:Hempty; cbn [negb orb].
    + assert (Hrows : rows df0 = []).
      { unfold df_empty in Hempty. rewrite Heq in *. cbn [columns rows] in *.
        destruct (map fst d) eqn:Ek; [discriminate|].
        destruct (map (row_at d) (seq 0 (height d))); [reflexivity|].
        discriminate. }
      assert (Hk : kept = []).
      { unfold kept. rewrite <- (kept_rows_parsed parse d p Hlen Hp').
        rewrite Heq in Hrows. cbn [rows] in Hrows. rewrite Hrows.
        reflexivity. }
      rewrite Hk, slice_to_nil. destruct (0 <? hours); reflexivity.
    + pose proof (V2_steps parse df0 p hours Hp) as Hsteps.
      cbv zeta in Hsteps. rewrite Hsteps.
      rewrite Heq. cbn [columns rows].
      rewrite (kept_rows_parsed parse d p Hlen Hp'). reflexivity.
  - cbn [negb orb].
    assert (Hk : kept = []).
    { unfold kept, parsed_rows. rewrite position_None; [reflexivity|].
      apply existsb_eqb_not_In. rewrite Heq in Ht. exact Ht. }
    rewrite Hk, slice_to_nil. destruct (0 <? hours); reflexivity.
Qed.

(** A returned table comes from an answer with a body, a status that is
    no error, and arrays of one length. *)
Lemma V2_fetch_inv (get : http_outcome forecast_json) (hours : Z)
      (df : DataFrame) :
  V2.fetch_hourly_weather parse get hours = Ok df ->
  exists s js df0,
    get = Response s (Some js) /\ is_error_status s = false /\
    pd_DataFrame (hourly_or_empty js) = Ok df0.
Proof.
  unfold V2.fetch_hourly_weather. destruct get as [|s [js|]].
  - discriminate.
  - cbn [requests_get bind]. unfold raise_for_status. cbn [status_code].
    destruct (is_error_status s) eqn:Hs; [discriminate|].
    cbn [bind response_json parsed_body]. cbv zeta.
    destruct (pd_DataFrame (hourly_or_empty js)) as [df0|e] eqn:Hdf;
      [|discriminate].
    intros _. exists s, js, df0. repeat split; assumption.
  - cbn [requests_get bind]. unfold raise_for_status. cbn [status_code].
    destruct (is_error_status s); discriminate.
Qed.

End ImprovedFetch.

(** ** The original variant, step by step *)

Lemma existsb_map {A B : Type} (f : B -> bool) (g : A -> B) (l : list A) :
  existsb f (map g l) = existsb (fun a => f (g a)) l.
Proof.
  induction l as [|a l IH]; simpl; [reflexivity|]. rewrite IH. reflexivity.
Qed.

Section OriginalFetch.

Variable parse : cell -> parsed.

Lemma indexed_rows_converted (d : hourly_object) (p : nat) :
  position "time" (map fst d) = Some p ->
  map (fun r : cell * list cell =>
         (nth p (snd r) CNull, remove_nth p (snd r)))
      (map (converted_row parse p) (map (row_at d) (seq 0 (height d))))
  = converted_rows parse d.
Proof.
  intros Hp. unfold converted_rows. rewrite Hp. rewrite !map_map.
  apply map_ext. intros i. unfold converted_row. cbn [snd fst].
  destruct (position_assoc "time" d p i Hp) as [arr [Ha [Hc [Hlt _]]]].
  rewrite nth_replace_nth by (rewrite row_at_length; exact Hlt).
  rewrite remove_nth_replace_nth. unfold row_at. cbn [snd].
  rewrite Hc. unfold time_array. rewrite Ha. reflexivity.
Qed.

(** What the original [fetch_hourly_weather] does on an answer whose
    table can be built. *)
Lemma V1_fetch_Ok (s : Z) (js : forecast_json) (hours : Z)
      (df0 : DataFrame) :
  is_error_status s = false ->
  pd_DataFrame (hourly_or_empty js) = Ok df0 ->
  let d := hourly_or_empty js in
  V1.fetch_hourly_weather parse (Response s (Some js)) hours
  = if has_column df0 "time" then
      if existsb (fun c => is_unparsable (parse c)) (time_array d)
      then Raise DateParseError
      else Ok {| columns := map display_label (drop_first "time" (map fst d));
                 rows := slice_to hours (converted_rows parse d) |}
    else Ok (rename rename_map df0).
Proof.
  intros Hs Hdf d. unfold V1.fetch_hourly_weather.
  cbn [requests_get bind]. unfold raise_for_status. cbn [status_code].
  rewrite Hs. cbn [bind response_json parsed_body]. cbv zeta.
  fold d. fold d in Hdf. rewrite Hdf. cbn [bind].
  destruct (pd_DataFrame_Ok d df0 Hdf) as [Hlen Heq].
  destruct (has_column df0 "time") eqn:Ht; [|reflexivity].
  destruct (has_column_position df0 "time" Ht) as [p Hp].
  assert (Hp' : position "time" (map fst d) = Some p).
  { rewrite Heq in Hp. exact Hp. }
  rewrite (to_datetime_column_raise parse "time" df0 p Hp).
  assert (Hex : existsb (fun r : cell * list cell =>
                           match parse (nth p (snd r) CNull) with
                           | Unparsable => true
                           | _ => false
                           end) (rows df0)
                = existsb (fun c => is_unparsable (parse c)) (time_array d)).
  { rewrite <- (time_cells d (height d) p Hlen Hp').
    rewrite existsb_map. rewrite Heq. reflexivity. }
  rewrite Hex.
  destruct (existsb (fun c => is_unparsable (parse c)) (time_array d));
    [reflexivity|].
  cbn [bind]. unfold set_index. cbn [columns rows]. rewrite Hp.
  cbn [bind]. unfold rename, iloc_to. cbn [columns rows].
  rewrite (position_remove "time" (columns df0) p Hp).
  rewrite Heq. cbn [columns rows].
  rewrite (indexed_rows_converted d p Hp'). reflexivity.
Qed.

Lemma V1_fetch_inv (get : http_outcome forecast_json) (hours : Z)
      (df : DataFrame) :
  V1.fetch_hourly_weather parse get hours = Ok df ->
  exists s js df0,
    get = Response s (Some js) /\ is_error_status s = false /\
    pd_DataFrame (hourly_or_empty js) = Ok df0.
Proof.
  unfold V1.fetch_hourly_weather. destruct get as [|s [js|]].
  - discriminate.
  - cbn [requests_get bind]. unfold raise_for_status. cbn [status_code].
    destruct (is_error_status s) eqn:Hs; [discriminate|].
    cbn [bind response_json parsed_body]. cbv zeta.
    destruct (pd_DataFrame (hourly_or_empty js)) as [df0|e] eqn:Hdf;
      [|discriminate].
    intros _. exists s, js, df0. repeat split; assumption.
  - cbn [requests_get bind]. unfold raise_for_status. cbn [status_code].
    destruct (is_error_status s); discriminate.
Qed.

Lemma converted_rows_index (d : hourly_object) (df0 : DataFrame) :
  pd_DataFrame d = Ok df0 ->
  In "time" (map fst d) ->
  map fst (converted_rows parse d) = map (coerced parse) (time_array d).
Proof.
  intros Hdf Hin. destruct (pd_DataFrame_Ok d df0 Hdf) as [Hlen _].
  destruct (position_Some_In "time" (map fst d) Hin) as [p Hp].
  rewrite <- (indexed_rows_converted d p Hp).
  rewrite map_map. cbn [fst].
  apply (converted_time_cells parse d (height d) p Hlen Hp).
Qed.

End OriginalFetch.

(** ** Row count and order (C1) *)



Lemma parsed_rows_labels (parse : cell -> parsed) (d : hourly_object)
      (df0 : DataFrame) :
  pd_DataFrame d = Ok df0 ->
  map fst (parsed_rows parse d)
  = map CTime (parsed_times parse (time_array d)).
Proof.
  intros Hdf.
  destruct (existsb (String.eqb "time") (map fst d)) eqn:E.
  - apply existsb_eqb_In in E. apply (parsed_rows_index parse d df0 Hdf E).
  - apply existsb_eqb_not_In in E. unfold parsed_rows, time_array.
    rewrite (position_None _ _ E).
    assert (Ha : assoc "time" d = None).
    { clear Hdf. induction d as [|[k a] d IH]; [reflexivity|].
      cbn [assoc]. destruct (String.eqb "time" k) eqn:Ek.
      - exfalso. apply E. left. apply String.eqb_eq in Ek. simpl. congruence.
      - apply IH. intros H. apply E. right. exact H. }
    rewrite Ha. reflexivity.
Qed.




(** ** Hours that are not positive (C9) *)

(** C9: in the improved variant, with [hours <= 0] nothing is cut off: the
    returned rows are the parsed rows of the answer, sorted, as many as the
    answer has timestamps that parse. *)
Theorem nonpositive_hours_keep_every_row
        (parse : cell -> parsed) (get : http_outcome forecast_json)
        (hours : Z) (df : DataFrame) :
  hours <= 0 ->
  V2.fetch_hourly_weather parse get hours = Ok df ->
  rows df = sort_rows (parsed_rows parse (upstream get)) /\
  Permutation (rows df) (parsed_rows parse (upstream get)) /\
  List.length (rows df)
  = List.length (parsed_times parse (time_array (upstream get))).
Proof.
  intros Hh Hf.
  destruct (V2_fetch_inv parse get hours df Hf) as [s [js [df0 [-> [Hs Hdf]]]]].
  cbn [upstream].
  rewrite (V2_fetch_Ok parse s js hours df0 Hs Hdf) in Hf.
  inversion Hf as [Hdf']. clear Hf. cbn [rows].
  assert (E : (0 <? hours) = false) by (apply Z.ltb_ge; exact Hh).
  rewrite E. split; [reflexivity|]. split.
  - apply sort_rows_perm.
  - rewrite sort_rows_length.
    transitivity
      (List.length (map fst (parsed_rows parse (hourly_or_empty js)))).
    + symmetry. apply length_map.
    + rewrite (parsed_rows_labels parse _ df0 Hdf).
      rewrite !length_map. reflexivity.
Qed.

Lemma nonpositive_hours_keep_every_row_witness :
  0 <= 0 /\
  List.length
    (rows {| columns := ["Temperature (°C)"];
             rows := [(CTime 1704067200000000000, [CNum 215 1]);
                      (CTime 1704070800000000000, [CNum 220 1])] |})
  = List.length
      (parsed_times Instances.to_datetime_scalar
         [CStr "2024-01-01T01:00"; CNull; CStr "2024-01-01T00:00"]).
Proof.
  split; [discriminate|].
  apply (nonpositive_hours_keep_every_row Instances.to_datetime_scalar
           (Instances.answer
              [("time", [CStr "2024-01-01T01:00"; CNull;
                         CStr "2024-01-01T00:00"]);
               ("temperature_2m", [CNum 220 1; CNum 0 0; CNum 215 1])]) 0).
  - discriminate.
  - vm_compute. reflexivity.
Defined.

(** ** Timestamps that do not parse (C6) *)

Lemma In_parsed_rows (parse : cell -> parsed) (d : hourly_object) (r : row) :
  In r (parsed_rows parse d) ->
  exists t i, fst r = CTime t /\
              parse (nth i (time_array d) CNull) = Parsed t /\
              (i < height d)%nat.
Proof.
  unfold parsed_rows. destruct (position "time" (map fst d)); [|intros []].
  rewrite in_flat_map. intros [i [Hi Hr]]. apply in_seq in Hi.
  destruct (parse (nth i (time_array d) CNull)) as [t| |] eqn:E;
    try (destruct Hr; fail).
  destruct Hr as [<- | []]. exists t, i. repeat split; [exact E|lia].
Qed.

(** C6, against the claim as stated: in the original variant a timestamp
    that is no date makes the fetch fail instead of dropping the row. *)
Lemma unparsable_timestamp_counterexample :
  V1.fetch_hourly_weather Instances.to_datetime_scalar
    (Instances.answer
       [("time", [CStr "2024-01-01T00:00"; CStr "garbage"]);
        ("temperature_2m", [CNum 215 1; CNum 220 1])]) 48
  = Raise DateParseError.
Proof. vm_compute. reflexivity. Qed.

(** C6, amended: in the improved variant, whenever the table of the answer
    can be built the fetch returns, and every returned row is a parsed row
    of the answer: its label is the timestamp its time cell parses to, so no
    row whose timestamp does not parse is kept.  In the original variant one
    time cell that is no date makes the fetch raise. *)
Theorem unparsable_rows_dropped
        (parse : cell -> parsed) (s : Z) (js : forecast_json) (H : Z)
        (df0 : DataFrame) :
  is_error_status s = false ->
  pd_DataFrame (hourly_or_empty js) = Ok df0 ->
  let d := hourly_or_empty js in
  (exists df,
      V2.fetch_hourly_weather parse (Response s (Some js)) H = Ok df /\
      forall r, In r (rows df) ->
                In r (parsed_rows parse d) /\
                exists t i, fst r = CTime t /\
                            parse (nth i (time_array d) CNull) = Parsed t /\
                            (i < height d)%nat) /\
  ((exists c, In c (time_array d) /\ parse c = Unparsable) ->
   V1.fetch_hourly_weather parse (Response s (Some js)) H
   = Raise DateParseError).
Proof.
  intros Hs Hdf d. split.
  - eexists. split; [apply (V2_fetch_Ok parse s js H df0 Hs Hdf)|].
    cbn [rows]. fold d. intros r Hr.
    assert (Hin : In r (parsed_rows parse d)).
    { apply (Permutation_in r (sort_rows_perm (parsed_rows parse d))).
      destruct (0 <? H); [|exact Hr].
      destruct (slice_to_firstn H (sort_rows (parsed_rows parse d)))
        as [n Hn].
      rewrite Hn in Hr. apply (In_firstn n). exact Hr. }
    split; [exact Hin|]. apply In_parsed_rows. exact Hin.
  - intros [c [Hc Hu]].
    rewrite (V1_fetch_Ok parse s js H df0 Hs Hdf). fold d.
    assert (Ht : has_column df0 "time" = true).
    { destruct (pd_DataFrame_Ok _ df0 Hdf) as [_ Heq]. fold d in Heq.
      unfold has_column. rewrite Heq. cbn [columns].
      apply existsb_eqb_In. unfold time_array in Hc.
      destruct (assoc "time" d) as [arr|] eqn:Ha; [|destruct Hc].
      clear - Ha. induction d as [|[k a] d' IH]; [discriminate|].
      cbn [assoc] in Ha. destruct (String.eqb "time" k) eqn:Ek.
      - left. apply String.eqb_eq in Ek. simpl. congruence.
      - right. apply IH. exact Ha. }
    rewrite Ht.
    assert (Hex : existsb (fun c => is_unparsable (parse c)) (time_array d)
                  = true).
    { apply existsb_exists. exists c. split; [exact Hc|].
      rewrite Hu. reflexivity. }
    rewrite Hex. reflexivity.
Qed.

Lemma unparsable_rows_dropped_witness :
  V1.fetch_hourly_weather Instances.to_datetime_scalar
    (Response 200
       (Some {| hourly := Some [("time", [CStr "garbage"; CStr "2024-01-01T00:00"])] |}))
    12
  = Raise DateParseError.
Proof.
  apply (unparsable_rows_dropped Instances.to_datetime_scalar 200
           {| hourly := Some [("time", [CStr "garbage";
                                        CStr "2024-01-01T00:00"])] |}
           12
           {| columns := ["time"];
              rows := [(range_label 0, [CStr "garbage"]);
                       (range_label 1, [CStr "2024-01-01T00:00"])] |}).
  - reflexivity.
  - reflexivity.
  - exists (CStr "garbage"). split; [left; reflexivity|reflexivity].
Defined.

(** ** Columns (C7, C10) *)

Ltac split_eqb u :=
  repeat match goal with
         | |- context [String.eqb u ?k] =>
             let E := fresh "E" in
             destruct (String.eqb u k) eqn:E;
             [apply String.eqb_eq in E; subst u | apply String.eqb_neq in E]
         end.

(** Names other than the four raw keys keep their name. *)
Lemma display_label_other (u : string) :
  ~ In u raw_keys -> display_label u = u.
Proof.
  intros Hn. unfold display_label, relabel, rename_map. cbn [assoc].
  split_eqb u; try reflexivity;
    exfalso; apply Hn; cbn; tauto.
Qed.

(** No name is relabelled to a raw key. *)
Lemma display_label_not_raw (u k : string) :
  In k raw_keys -> display_label u <> k.
Proof.
  intros Hk Heq. unfold display_label, relabel, rename_map in Heq.
  cbn [assoc] in Heq. cbn in Hk.
  destruct (String.eqb u "temperature_2m") eqn:E1;
    [subst k; intuition discriminate|].
  destruct (String.eqb u "precipitation") eqn:E2;
    [subst k; intuition discriminate|].
  destruct (String.eqb u "windspeed_10m") eqn:E3;
    [subst k; intuition discriminate|].
  destruct (String.eqb u "relative_humidity_2m") eqn:E4;
    [subst k; intuition discriminate|].
  subst u.
  destruct Hk as [<- | [<- | [<- | [<- | []]]]];
    cbn in E1, E2, E3, E4; discriminate.
Qed.

(** A name relabelled to the label of a raw key is that key, or is the
    label itself. *)
Lemma display_label_source (u k : string) :
  In k raw_keys -> display_label u = display_label k ->
  u = k \/ u = display_label k.
Proof.
  intros Hk. cbn in Hk.
  destruct (String.eqb u "temperature_2m") eqn:E1;
    [apply String.eqb_eq in E1|];
  (destruct (String.eqb u "precipitation") eqn:E2;
    [apply String.eqb_eq in E2|]);
  (destruct (String.eqb u "windspeed_10m") eqn:E3;
    [apply String.eqb_eq in E3|]);
  (destruct (String.eqb u "relative_humidity_2m") eqn:E4;
    [apply String.eqb_eq in E4|]);
  try (subst u; discriminate);
  try (subst u;
       destruct Hk as [<- | [<- | [<- | [<- | []]]]];
       intros Heq; first [left; reflexivity | discriminate Heq]).
  intros Heq. right. rewrite <- Heq.
  unfold display_label, relabel, rename_map. cbn [assoc].
  rewrite E1, E2, E3, E4. reflexivity.
Qed.

Lemma In_drop_first (name x : string) (l : list string) :
  In x (drop_first name l) -> In x l.
Proof.
  induction l as [|c l IH]; simpl; [intros []|].
  destruct (String.eqb name c); [intros H; right; exact H|].
  intros [<- | H]; [left; reflexivity|right; apply IH; exact H].
Qed.

Lemma drop_first_absent (name : string) (l : list string) :
  ~ In name l -> drop_first name l = l.
Proof.
  induction l as [|c l IH]; [reflexivity|]. intros Hn. simpl.
  destruct (String.eqb name c) eqn:E.
  - exfalso. apply Hn. left. apply String.eqb_eq in E. congruence.
  - f_equal. apply IH. intros H'. apply Hn. right. exact H'.
Qed.

Lemma df_empty_height (d : hourly_object) :
  In "time" (map fst d) ->
  df_empty {| columns := map fst d;
              rows := map (row_at d) (seq 0 (height d)) |}
  = Nat.eqb (height d) 0.
Proof.
  intros Hin. unfold df_empty. cbn [columns rows].
  destruct (map fst d) as [|k ks]; [destruct Hin|].
  destruct (height d); reflexivity.
Qed.

(** The columns either variant returns. *)
Lemma V1_columns (parse : cell -> parsed) (get : http_outcome forecast_json)
      (H : Z) (df : DataFrame) :
  V1.fetch_hourly_weather parse get H = Ok df ->
  columns df
  = map display_label (drop_first "time" (upstream_keys (upstream get))).
Proof.
  intros Hf.
  destruct (V1_fetch_inv parse get H df Hf) as [s [js [df0 [-> [Hs Hdf]]]]].
  cbn [upstream]. rewrite (V1_fetch_Ok parse s js H df0 Hs Hdf) in Hf.
  destruct (pd_DataFrame_Ok _ df0 Hdf) as [_ Heq].
  destruct (has_column df0 "time") eqn:Ht.
  - destruct (existsb _ (time_array (hourly_or_empty js))); [discriminate|].
    inversion Hf. reflexivity.
  - inversion Hf. unfold rename. cbn [columns]. rewrite Heq. cbn [columns].
    unfold upstream_keys.
    assert (Hd : drop_first "time" (map fst (hourly_or_empty js))
                 = map fst (hourly_or_empty js)).
    { unfold has_column in Ht. rewrite Heq in Ht. cbn [columns] in Ht.
      apply existsb_eqb_not_In in Ht. apply drop_first_absent. exact Ht. }
    rewrite Hd. reflexivity.
Qed.

Lemma V2_columns (parse : cell -> parsed) (get : http_outcome forecast_json)
      (H : Z) (df : DataFrame) :
  V2.fetch_hourly_weather parse get H = Ok df ->
  columns df
  = if existsb (String.eqb "time") (upstream_keys (upstream get))
       && negb (Nat.eqb (height (upstream get)) 0)
    then map display_label (drop_first "time" (upstream_keys (upstream get)))
    else [].
Proof.
  intros Hf.
  destruct (V2_fetch_inv parse get H df Hf) as [s [js [df0 [-> [Hs Hdf]]]]].
  cbn [upstream]. rewrite (V2_fetch_Ok parse s js H df0 Hs Hdf) in Hf.
  destruct (pd_DataFrame_Ok _ df0 Hdf) as [_ Heq].
  inversion Hf as [Hdf']. clear Hf. cbn [columns]. unfold upstream_keys.
  unfold has_column at 1. rewrite Heq at 1. cbn [columns].
  destruct (existsb (String.eqb "time") (map fst (hourly_or_empty js)))
    eqn:Ht; [|reflexivity].
  cbn [negb orb andb]. rewrite Heq.
  rewrite df_empty_height by (apply existsb_eqb_In; exact Ht).
  destruct (Nat.eqb (height (hourly_or_empty js)) 0); reflexivity.
Qed.

(** Every returned column is an upstream field under its display label. *)
Lemma columns_from_upstream (parse : cell -> parsed)
      (get : http_outcome forecast_json) (H : Z) (df : DataFrame) :
  V1.fetch_hourly_weather parse get H = Ok df \/
  V2.fetch_hourly_weather parse get H = Ok df ->
  forall c, In c (columns df) ->
            exists u, In u (upstream_keys (upstream get)) /\
                      c = display_label u.
Proof.
  intros Hf c Hc.
  assert (Hin : In c (map display_label
                        (drop_first "time" (upstream_keys (upstream get))))).
  { destruct Hf as [Hf | Hf].
    - rewrite <- (V1_columns parse get H df Hf). exact Hc.
    - rewrite (V2_columns parse get H df Hf) in Hc.
      destruct (_ && _) in Hc; [exact Hc|destruct Hc]. }
  apply in_map_iff in Hin. destruct Hin as [u [Hu Hin]].
  exists u. split; [|symmetry; exact Hu].
  apply In_drop_first with (name := "time"). exact Hin.
Qed.

(** C7, against the claim as stated: an answer that lacks the variable
    "precipitation" but carries a field named by its display label,
    "Precipitation (mm)", gives a table with that column, in both
    variants. *)
Lemma absent_variable_counterexample :
  ~ In "precipitation"
      (upstream_keys
         (upstream
            (Instances.answer
               [("time", [CStr "2024-01-01T00:00"]);
                ("Precipitation (mm)", [CNum 5 0])]))) /\
  V1.fetch_hourly_weather Instances.to_datetime_scalar
    (Instances.answer
       [("time", [CStr "2024-01-01T00:00"]);
        ("Precipitation (mm)", [CNum 5 0])]) 48
  = Ok {| columns := ["Precipitation (mm)"];
          rows := [(CTime 1704067200000000000, [CNum 5 0])] |} /\
  V2.fetch_hourly_weather Instances.to_datetime_scalar
    (Instances.answer
       [("time", [CStr "2024-01-01T00:00"]);
        ("Precipitation (mm)", [CNum 5 0])]) 48
  = Ok {| columns := ["Precipitation (mm)"];
          rows := [(CTime 1704067200000000000, [CNum 5 0])] |} /\
  In (display_label "precipitation") ["Precipitation (mm)"].
Proof.
  split; [|split; [|split]].
  - cbn. intros [E | [E | []]]; discriminate E.
  - vm_compute. reflexivity.
  - vm_compute. reflexivity.
  - left. reflexivity.
Qed.

(** C7, amended: when the answer lacks one of the four variables and
    carries no field named by the display label of that variable, the
    returned table has no column for the variable, under its raw key or
    under its display label, in either variant.  No column is made up:
    every returned column is a field of the answer under its display label,
    and so a field of the answer that is named by a display label is the
    only source of a column of that name. *)
Theorem absent_variable_has_no_column
        (parse : cell -> parsed) (get : http_outcome forecast_json)
        (H : Z) (df : DataFrame) (k : string) :
  V1.fetch_hourly_weather parse get H = Ok df \/
  V2.fetch_hourly_weather parse get H = Ok df ->
  In k raw_keys ->
  ~ In k (upstream_keys (upstream get)) ->
  ~ In (display_label k) (upstream_keys (upstream get)) ->
  (forall c, In c (columns df) -> c <> k /\ c <> display_label k) /\
  has_column df k = false /\
  has_column df (display_label k) = false /\
  (forall c, In c (columns df) ->
             exists u, In u (upstream_keys (upstream get)) /\
                       c = display_label u).
Proof.
  intros Hf Hk Hn Hl.
  assert (Hraw : ~ In k (columns df)).
  { intros Hc.
    destruct (columns_from_upstream parse get H df Hf k Hc) as [u [_ Hu]].
    apply (display_label_not_raw u k Hk). symmetry. exact Hu. }
  assert (Hlab : ~ In (display_label k) (columns df)).
  { intros Hc.
    destruct (columns_from_upstream parse get H df Hf _ Hc) as [u [Hin Hu]].
    destruct (display_label_source u k Hk (eq_sym Hu)) as [-> | ->];
      contradiction. }
  split; [|split; [|split]].
  - intros c Hc. split; intros ->; contradiction.
  - apply existsb_eqb_not_In. exact Hraw.
  - apply existsb_eqb_not_In. exact Hlab.
  - apply (columns_from_upstream parse get H df Hf).
Qed.

Lemma absent_variable_has_no_column_witness :
  has_column
    {| columns := ["Temperature (°C)"; "Wind Speed (km/h)";
                   "Relative Humidity (%)"];
       rows := [(CTime 1704067200000000000,
                 [CNum 215 1; CNum 72 1; CNum 64 0])] |}
    "precipitation" = false /\
  has_column
    {| columns := ["Temperature (°C)"; "Wind Speed (km/h)";
                   "Relative Humidity (%)"];
       rows := [(CTime 1704067200000000000,
                 [CNum 215 1; CNum 72 1; CNum 64 0])] |}
    (display_label "precipitation") = false.
Proof.
  pose proof
    (absent_variable_has_no_column Instances.to_datetime_scalar
       (Instances.answer
          [("time", [CStr "2024-01-01T00:00"]);
           ("temperature_2m", [CNum 215 1]);
           ("windspeed_10m", [CNum 72 1]);
           ("relative_humidity_2m", [CNum 64 0])]) 48
       {| columns := ["Temperature (°C)"; "Wind Speed (km/h)";
                      "Relative Humidity (%)"];
          rows := [(CTime 1704067200000000000,
                    [CNum 215 1; CNum 72 1; CNum 64 0])] |}
       "precipitation") as W.
  destruct W as [_ [W1 [W2 _]]].
  - right. vm_compute. reflexivity.
  - cbn. tauto.
  - cbn. intros [E | [E | [E | [E | []]]]]; discriminate E.
  - cbn. intros [E | [E | [E | [E | []]]]]; discriminate E.
  - split; [exact W1|exact W2].
Defined.

(** C10, against the claim as stated: on an answer without a time field
    the improved variant returns a table with no column, while the answer
    has one. *)
Lemma relabelling_counterexample :
  V2.fetch_hourly_weather Instances.to_datetime_scalar
    (Instances.answer [("temperature_2m", [CNum 215 1])]) 48
  = Ok empty_frame /\
  map display_label
      (drop_first "time"
         (upstream_keys
            (upstream (Instances.answer [("temperature_2m", [CNum 215 1])]))))
  = ["Temperature (°C)"] /\
  columns empty_frame <> ["Temperature (°C)"].
Proof.
  split; [vm_compute; reflexivity|]. split; [reflexivity|]. discriminate.
Qed.

(** C10, amended: the columns of the returned table are the fields of the
    answer without the time field, each under its display label: the four
    known keys relabelled, every other name kept; in the original variant
    always, in the improved variant when the answer has a time field and at
    least one row.  Otherwise the improved variant returns a table with no
    column. *)
Theorem relabelling_keeps_columns
        (parse : cell -> parsed) (get : http_outcome forecast_json)
        (H : Z) (df : DataFrame) :
  let keys := upstream_keys (upstream get) in
  (V1.fetch_hourly_weather parse get H = Ok df ->
   columns df = map display_label (drop_first "time" keys)) /\
  (V2.fetch_hourly_weather parse get H = Ok df ->
   In "time" keys -> height (upstream get) <> O ->
   columns df = map display_label (drop_first "time" keys)) /\
  (V2.fetch_hourly_weather parse get H = Ok df ->
   ~ In "time" keys \/ height (upstream get) = O ->
   columns df = []) /\
  (forall u, ~ In u raw_keys -> display_label u = u) /\
  map display_label raw_keys
  = ["Temperature (°C)"; "Precipitation (mm)"; "Wind Speed (km/h)";
     "Relative Humidity (%)"].
Proof.
  intros keys. split; [|split; [|split; [|split]]].
  - apply V1_columns.
  - intros Hf Hin Hh. rewrite (V2_columns parse get H df Hf).
    fold keys. apply existsb_eqb_In in Hin. rewrite Hin.
    apply Nat.eqb_neq in Hh. rewrite Hh. reflexivity.
  - intros Hf Hc. rewrite (V2_columns parse get H df Hf). fold keys.
    destruct Hc as [Hn | Hh].
    + apply existsb_eqb_not_In in Hn. rewrite Hn. reflexivity.
    + rewrite Hh. cbn [Nat.eqb negb]. rewrite andb_false_r. reflexivity.
  - apply display_label_other.
  - reflexivity.
Qed.

Lemma relabelling_keeps_columns_witness :
  columns {| columns := ["Temperature (°C)"; "uv_index"];
             rows := [(CTime 1704067200000000000, [CNum 215 1; CNum 3 0])] |}
  = map display_label ["temperature_2m"; "uv_index"].
Proof.
  apply (relabelling_keeps_columns Instances.to_datetime_scalar
           (Instances.answer
              [("temperature_2m", [CNum 215 1]);
               ("time", [CStr "2024-01-01T00:00"]);
               ("uv_index", [CNum 3 0])]) 48).
  - vm_compute. reflexivity.
  - cbn. tauto.
  - cbn. discriminate.
Defined.

(** ** The summary row (C8) *)

Lemma last_default {A : Type} (c a b : A) (l : list A) :
  last (c :: l) a = last (c :: l) b.
Proof.
  revert c. induction l as [|x l IH]; intros c; [reflexivity|].
  change (last (x :: l) a = last (x :: l) b). apply IH.
Qed.

Lemma last_shift {A : Type} (a b : A) (l : list A) :
  last (b :: l) a = last l b.
Proof.
  destruct l as [|c l]; [reflexivity|].
  change (last (c :: l) a = last (c :: l) b). apply last_default.
Qed.

Lemma nth_error_last {A : Type} (a : A) (l : list A) :
  nth_error (a :: l) (List.length l) = Some (last l a).
Proof.
  revert a. induction l as [|b l IH]; intros a; [reflexivity|].
  cbn [List.length nth_error]. rewrite IH. rewrite last_shift. reflexivity.
Qed.



Lemma iloc_first (df : DataFrame) (r : row) (rs : list row) :
  rows df = r :: rs -> iloc 0 df = Ok (combine (columns df) (snd r)).
Proof.
  intros H. unfold iloc. rewrite H. cbn [List.length nth_error].
  replace (0 <? 0) with false by reflexivity.
  replace ((0 <=? 0) && (0 <? Z.of_nat (S (List.length rs)))) with true.
  - reflexivity.
  - symmetry. apply andb_true_intro. split; [reflexivity|].
    apply Z.ltb_lt. lia.
Qed.

Lemma iloc_last (df : DataFrame) (r : row) (rs : list row) :
  rows df = r :: rs ->
  iloc (-1) df = Ok (combine (columns df) (snd (last rs r))).
Proof.
  intros H. unfold iloc. rewrite H.
  replace (-1 <? 0) with true by reflexivity.
  replace (Z.of_nat (List.length (r :: rs)) + -1)
    with (Z.of_nat (List.length rs)) by (cbn [List.length]; lia).
  replace ((0 <=? Z.of_nat (List.length rs))
           && (Z.of_nat (List.length rs)
               <? Z.of_nat (List.length (r :: rs)))) with true.
  - rewrite Nat2Z.id. rewrite nth_error_last. reflexivity.
  - symmetry. apply andb_true_intro. split.
    + apply Z.leb_le. lia.
    + apply Z.ltb_lt. cbn [List.length]. lia.
Qed.





(** ** The summary cards (C5) *)

Lemma getitem_missing (cols : list string) (cells : list cell)
      (key : string) :
  ~ In key cols -> getitem (combine cols cells) key = Raise (KeyError key).
Proof.
  intros Hn. unfold getitem.
  assert (Hf : filter (fun kv : string * cell => String.eqb key (fst kv))
                      (combine cols cells) = []).
  { revert cells. induction cols as [|c cols IH]; intros cells;
      [reflexivity|].
    destruct cells as [|x cells]; [reflexivity|].
    cbn [combine filter fst]. destruct (String.eqb key c) eqn:E.
    - exfalso. apply Hn. left. apply String.eqb_eq in E. congruence.
    - apply IH. intros H. apply Hn. right. exact H. }
  rewrite Hf. reflexivity.
Qed.

Lemma metric_text_missing (fmt : nat -> cell -> result string)
      (digits : nat) (unit_text : string) (df : DataFrame)
      (cells : list cell) (col : string) :
  has_column df col = false ->
  metric_text fmt digits unit_text (combine (columns df) cells) col
  = Raise (KeyError col).
Proof.
  intros H. unfold metric_text. rewrite getitem_missing; [reflexivity|].
  apply existsb_eqb_not_In. exact H.
Qed.


Lemma In_combine_fst {A B : Type} (l : list A) (l' : list B) (a : A) :
  List.length l = List.length l' -> In a l ->
  exists b, In (a, b) (combine l l').
Proof.
  revert l'. induction l as [|x l IH]; intros l' Hlen Hin; [destruct Hin|].
  destruct l' as [|y l']; [discriminate|]. cbn [combine].
  destruct Hin as [-> | Hin].
  - exists y. left. reflexivity.
  - destruct (IH l' (f_equal Nat.pred Hlen) Hin) as [b Hb].
    exists b. right. exact Hb.
Qed.

(** Reading a column that is there from a row as wide as the table never
    raises a KeyError: what can fail is the formatting. *)
Lemma metric_text_outcome (fmt : nat -> cell -> result string)
      (digits : nat) (unit_text : string) (cols : list string)
      (cells : list cell) (col : string) :
  List.length cells = List.length cols ->
  In col cols ->
  (exists t, metric_text fmt digits unit_text (combine cols cells) col
             = Ok t) \/
  (exists e, metric_text fmt digits unit_text (combine cols cells) col
             = Raise e /\ formatting_error fmt e).
Proof.
  intros Hlen Hin. unfold metric_text, getitem.
  destruct (In_combine_fst cols cells col (eq_sym Hlen) Hin) as [c Hc].
  assert (Hf : In (col, c)
                  (filter (fun kv : string * cell => String.eqb col (fst kv))
                          (combine cols cells))).
  { apply filter_In. split; [exact Hc|]. apply String.eqb_refl. }
  destruct (filter _ (combine cols cells)) as [|[k x] [|kv rest]].
  - destruct Hf.
  - cbn [bind format_item].
    destruct (fmt digits x) as [t|e] eqn:E.
    + left. exists (t ++ unit_text)%string. reflexivity.
    + right. exists e. split; [reflexivity|]. right. exists digits, x.
      exact E.
  - right. exists TypeError. split; [reflexivity|]. left. reflexivity.
Qed.




(** ** An answer without data (C4) *)




(** * Further properties of the two scripts *)

(** ** Tables returned by the fetchers are rectangular *)

Lemma length_remove_nth {A : Type} (p : nat) (l : list A) :
  (p < List.length l)%nat ->
  List.length (remove_nth p l) = Nat.pred (List.length l).
Proof.
  revert p. induction l as [|a l IH]; intros p H; [simpl in H; lia|].
  destruct p as [|p]; [reflexivity|].
  cbn [remove_nth List.length] in *. rewrite IH by lia.
  destruct l; [simpl in H; lia|reflexivity].
Qed.

Lemma In_slice_to {A : Type} (stop : Z) (l : list A) (x : A) :
  In x (slice_to stop l) -> In x l.
Proof.
  destruct (slice_to_firstn stop l) as [n ->]. apply In_firstn.
Qed.

Lemma parsed_rows_width (parse : cell -> parsed) (d : hourly_object)
      (r : row) :
  In r (parsed_rows parse d) ->
  List.length (snd r) = Nat.pred (List.length d).
Proof.
  unfold parsed_rows.
  destruct (position "time" (map fst d)) as [p|] eqn:Hp; [|intros []].
  rewrite in_flat_map. intros [i [_ Hr]].
  destruct (parse (nth i (time_array d) CNull)); try (destruct Hr; fail).
  destruct Hr as [<- | []]. cbn [snd].
  destruct (position_assoc "time" d p i Hp) as [_ [_ [_ [Hlt _]]]].
  rewrite length_remove_nth; rewrite length_map; [reflexivity|exact Hlt].
Qed.

Lemma converted_rows_width (parse : cell -> parsed) (d : hourly_object)
      (r : row) :
  In r (converted_rows parse d) ->
  List.length (snd r) = Nat.pred (List.length d).
Proof.
  unfold converted_rows.
  destruct (position "time" (map fst d)) as [p|] eqn:Hp; [|intros []].
  rewrite in_map_iff. intros [i [<- _]]. cbn [snd].
  destruct (position_assoc "time" d p i Hp) as [_ [_ [_ [Hlt _]]]].
  rewrite length_remove_nth; rewrite length_map; [reflexivity|exact Hlt].
Qed.

Lemma drop_first_width (name : string) (l : list string) :
  In name l -> List.length (drop_first name l) = Nat.pred (List.length l).
Proof.
  induction l as [|c l IH]; [intros []|]. intros Hin. simpl.
  destruct (String.eqb name c) eqn:E; [reflexivity|].
  destruct Hin as [<- | Hin]; [rewrite String.eqb_refl in E; discriminate|].
  cbn [List.length]. rewrite (IH Hin).
  destruct l; [destruct Hin|reflexivity].
Qed.

Lemma V1_rectangular (parse : cell -> parsed)
      (get : http_outcome forecast_json) (hours : Z) (df : DataFrame) :
  V1.fetch_hourly_weather parse get hours = Ok df -> rectangular df.
Proof.
  intros Hf.
  destruct (V1_fetch_inv parse get hours df Hf) as [s [js [df0 [-> [Hs Hdf]]]]].
  rewrite (V1_fetch_Ok parse s js hours df0 Hs Hdf) in Hf.
  destruct (pd_DataFrame_Ok _ df0 Hdf) as [_ Heq].
  unfold rectangular. apply Forall_forall. intros r Hr.
  destruct (has_column df0 "time") eqn:Ht.
  - destruct (existsb _ (time_array (hourly_or_empty js))); [discriminate|].
    inversion Hf as [Hdf']. subst df. cbn [rows columns] in *.
    apply In_slice_to in Hr. rewrite (converted_rows_width parse _ r Hr).
    rewrite length_map, drop_first_width, length_map; [reflexivity|].
    unfold has_column in Ht. rewrite Heq in Ht. cbn [columns] in Ht.
    apply existsb_eqb_In. exact Ht.
  - inversion Hf as [Hdf']. subst df. unfold rename in *.
    cbn [rows columns] in *. rewrite Heq in *. cbn [rows columns] in *.
    apply in_map_iff in Hr. destruct Hr as [i [<- _]].
    rewrite row_at_length, !length_map. reflexivity.
Qed.

Lemma V2_rectangular (parse : cell -> parsed)
      (get : http_outcome forecast_json) (hours : Z) (df : DataFrame) :
  V2.fetch_hourly_weather parse get hours = Ok df -> rectangular df.
Proof.
  intros Hf.
  destruct (V2_fetch_inv parse get hours df Hf) as [s [js [df0 [-> [Hs Hdf]]]]].
  rewrite (V2_fetch_Ok parse s js hours df0 Hs Hdf) in Hf.
  destruct (pd_DataFrame_Ok _ df0 Hdf) as [Hlen Heq].
  unfold rectangular. apply Forall_forall. intros r Hr.
  inversion Hf as [Hdf']. subst df. cbn [rows columns] in *.
  assert (Hin : In r (parsed_rows parse (hourly_or_empty js))).
  { apply (Permutation_in r (sort_rows_perm _)).
    destruct (0 <? hours); [apply In_slice_to in Hr|]; exact Hr. }
  rewrite (parsed_rows_width parse _ r Hin).
  assert (Htime : In "time" (map fst (hourly_or_empty js))).
  { unfold parsed_rows in Hin.
    destruct (position "time" (map fst (hourly_or_empty js))) eqn:Hp;
      [|destruct Hin].
    apply existsb_eqb_In.
    destruct (existsb (String.eqb "time") (map fst (hourly_or_empty js)))
      eqn:E; [reflexivity|].
    apply existsb_eqb_not_In in E. rewrite (position_None _ _ E) in Hp.
    discriminate. }
  assert (Ht : has_column df0 "time" = true).
  { unfold has_column. rewrite Heq. cbn [columns].
    apply existsb_eqb_In. exact Htime. }
  rewrite Ht. cbn [negb orb].
  assert (He : df_empty df0 = false).
  { rewrite Heq, (df_empty_height _ Htime).
    destruct (height (hourly_or_empty js)) eqn:Hh; [|reflexivity].
    exfalso. unfold parsed_rows in Hin.
    destruct (position "time" (map fst (hourly_or_empty js)));
      [|destruct Hin].
    rewrite Hh in Hin. destruct Hin. }
  rewrite He. rewrite length_map, drop_first_width, length_map;
    [reflexivity|exact Htime].
Qed.

(** X1: every table either fetcher returns is rectangular: each row has
    exactly one cell per column, whatever the answer and the hour count. *)
Theorem fetched_tables_are_rectangular
        (parse : cell -> parsed) (get : http_outcome forecast_json)
        (hours : Z) (df : DataFrame) :
  V1.fetch_hourly_weather parse get hours = Ok df \/
  V2.fetch_hourly_weather parse get hours = Ok df ->
  rectangular df.
Proof.
  intros [H | H].
  - apply (V1_rectangular parse get hours df H).
  - apply (V2_rectangular parse get hours df H).
Qed.

Lemma fetched_tables_are_rectangular_witness :
  rectangular
    {| columns := ["Temperature (°C)"; "Wind Speed (km/h)"];
       rows := [(CTime 1704067200000000000, [CNum 215 1; CNum 72 1])] |}.
Proof.
  apply (fetched_tables_are_rectangular Instances.to_datetime_scalar
           (Instances.answer
              [("temperature_2m", [CNum 215 1; CNum 220 1]);
               ("time", [CStr "2024-01-01T00:00"; CNull]);
               ("windspeed_10m", [CNum 72 1; CNum 80 1])]) 48).
  right. vm_compute. reflexivity.
Defined.

(** ** Which failures the scripts can end with *)

Lemma fails_only_formatting_bind {A B : Type}
      (fmt : nat -> cell -> result string) (m : ui A) (k : A -> ui B) :
  fails_only_formatting fmt m ->
  (forall a, fails_only_formatting fmt (k a)) ->
  fails_only_formatting fmt (ui_bind m k).
Proof.
  intros Hm Hk ws h. unfold ui_bind. destruct m as [w1 [a|h1]].
  - destruct (k a) as [w2 s2] eqn:Ek. intros H. inversion H. subst.
    eapply Hk. exact Ek.
  - intros H. inversion H. subst. eapply Hm. reflexivity.
Qed.

Lemma fails_only_formatting_next {A B : Type}
      (fmt : nat -> cell -> result string) (w : list widget) (a : A)
      (k : A -> ui B) :
  fails_only_formatting fmt (k a) ->
  fails_only_formatting fmt (ui_bind (w, Next a) k).
Proof.
  intros Hk ws h. unfold ui_bind.
  destruct (k a) as [w2 s2] eqn:Ek. intros H. inversion H. subst.
  eapply Hk. reflexivity.
Qed.

Lemma completes_fails_only {A : Type} (fmt : nat -> cell -> result string)
      (m : ui A) :
  completes m -> fails_only_formatting fmt m.
Proof.
  intros [w [a ->]] ws h H. discriminate H.
Qed.

Lemma completes_bind {A B : Type} (m : ui A) (k : A -> ui B) :
  completes m -> (forall a, completes (k a)) -> completes (ui_bind m k).
Proof.
  intros [w [a ->]] Hk. destruct (Hk a) as [w2 [b Hb]].
  exists (w ++ w2)%list, b. unfold ui_bind. rewrite Hb. reflexivity.
Qed.

Lemma completes_emit (w : widget) : completes (emit w).
Proof. exists [w], tt. reflexivity. Qed.

Lemma lift_metric_fails_only (fmt : nat -> cell -> result string)
      (digits : nat) (unit_text : string) (cols : list string)
      (cells : list cell) (col : string) :
  List.length cells = List.length cols ->
  In col cols ->
  fails_only_formatting
    fmt (lift (metric_text fmt digits unit_text (combine cols cells) col)).
Proof.
  intros Hlen Hin ws h.
  destruct (metric_text_outcome fmt digits unit_text cols cells col Hlen Hin)
    as [[t ->] | [e [-> He]]]; cbn [lift]; intros H; inversion H.
  subst. exists e. split; [reflexivity|exact He].
Qed.

Lemma last_In {A : Type} (a : A) (l : list A) : In (last l a) (a :: l).
Proof.
  revert a. induction l as [|b l IH]; intros a; [left; reflexivity|].
  rewrite last_shift. right. apply IH.
Qed.

Lemma V2_card_fails_only (fmt : nat -> cell -> result string)
      (df : DataFrame) (cells : list cell) (col label : string)
      (digits : nat) (unit_text : string) :
  List.length cells = List.length (columns df) ->
  fails_only_formatting
    fmt (V2.card fmt df (combine (columns df) cells) col label
                 digits unit_text).
Proof.
  intros Hlen. unfold V2.card. destruct (has_column df col) eqn:Hc.
  - apply fails_only_formatting_bind.
    + apply lift_metric_fails_only; [exact Hlen|].
      apply existsb_eqb_In. exact Hc.
    + intros t. apply completes_fails_only. apply completes_emit.
  - apply completes_fails_only. apply completes_emit.
Qed.

Lemma V2_summary_fails_only (fmt : nat -> cell -> result string)
      (df : DataFrame) (r : row) (rs : list row) :
  rectangular df -> rows df = r :: rs ->
  fails_only_formatting fmt (V2.summary_cards fmt df).
Proof.
  intros Hrect Hrows. unfold V2.summary_cards, V2.latest.
  rewrite (iloc_last df r rs Hrows). cbn [lift].
  assert (Hlen : List.length (snd (last rs r)) = List.length (columns df)).
  { unfold rectangular in Hrect. rewrite Forall_forall in Hrect.
    apply Hrect. rewrite Hrows. apply last_In. }
  apply fails_only_formatting_next.
  apply fails_only_formatting_bind;
    [apply completes_fails_only; apply completes_emit | intros _].
  repeat (apply fails_only_formatting_bind;
          [apply V2_card_fails_only; exact Hlen | intros _]).
  apply V2_card_fails_only. exact Hlen.
Qed.

(** ** Selecting columns for the charts *)

Lemma positions_from_found (i : nat) (name : string) (cols : list string) :
  In name cols -> positions_from i name cols <> [].
Proof.
  revert i. induction cols as [|c cols IH]; intros i Hin; [destruct Hin|].
  cbn [positions_from]. destruct (String.eqb name c) eqn:E; [discriminate|].
  destruct Hin as [<- | Hin]; [rewrite String.eqb_refl in E; discriminate|].
  apply IH. exact Hin.
Qed.

Lemma positions_from_name (i : nat) (name : string) (cols : list string)
      (p : nat) :
  In p (positions_from i name cols) ->
  exists q, p = (i + q)%nat /\ nth_error cols q = Some name.
Proof.
  revert i. induction cols as [|c cols IH]; intros i Hin; [destruct Hin|].
  cbn [positions_from] in Hin. destruct (String.eqb name c) eqn:E.
  - destruct Hin as [<- | Hin].
    + exists O. split; [lia|]. apply String.eqb_eq in E. subst.
      reflexivity.
    + destruct (IH (S i) Hin) as [q [-> Hq]]. exists (S q).
      split; [lia|exact Hq].
  - destruct (IH (S i) Hin) as [q [-> Hq]]. exists (S q).
    split; [lia|exact Hq].
Qed.

Lemma map_result_Forall2 {A B : Type} (f : A -> result B) (l : list A)
      (bs : list B) :
  map_result f l = Ok bs -> Forall2 (fun a b => f a = Ok b) l bs.
Proof.
  revert bs. induction l as [|a l IH]; intros bs H.
  - inversion H. constructor.
  - cbn [map_result] in H. destruct (f a) as [b|e] eqn:Ea; [|discriminate].
    cbn [bind] in H. destruct (map_result f l) as [bs'|e]; [|discriminate].
    inversion H. constructor; [exact Ea|]. apply IH. reflexivity.
Qed.

(** [df[[names]]] succeeds when every name is a column. *)
Lemma select_columns_present (names : list string) (df : DataFrame) :
  Forall (fun n => In n (columns df)) names ->
  exists d, select_columns names df = Ok d.
Proof.
  intros Hall. unfold select_columns.
  assert (Hm : exists found,
             map_result
               (fun n => match positions_from O n (columns df) with
                         | [] => Raise (KeyError n)
                         | ps => Ok ps
                         end) names = Ok found).
  { induction Hall as [|n names Hn _ IH]; [exists []; reflexivity|].
    destruct IH as [found Hf]. cbn [map_result].
    pose proof (positions_from_found O n (columns df) Hn) as Hne.
    destruct (positions_from O n (columns df)) as [|p ps] eqn:Ep;
      [contradiction|].
    cbn [bind]. rewrite Hf. cbn [bind]. eexists. reflexivity. }
  destruct Hm as [found ->]. cbn [bind]. eexists. reflexivity.
Qed.

(** What [df[[names]]] returns keeps the index, and its columns are
    columns of [df] named in [names]. *)
Lemma select_columns_Ok (names : list string) (df d : DataFrame) :
  select_columns names df = Ok d ->
  index d = index df /\
  (forall c, In c (columns d) -> In c names /\ In c (columns df)).
Proof.
  unfold select_columns.
  destruct (map_result _ names) as [found|e] eqn:Hm; [|discriminate].
  cbn [bind]. intros H. inversion H. subst d. clear H.
  unfold index. cbn [rows columns]. split.
  - rewrite map_map. reflexivity.
  - intros c Hc. apply in_map_iff in Hc. destruct Hc as [p [Hp Hin]].
    apply in_concat in Hin. destruct Hin as [ps [Hps Hpin]].
    apply map_result_Forall2 in Hm.
    assert (Hsrc : exists n, In n names /\
                             In p (positions_from O n (columns df))).
    { clear - Hm Hps Hpin. induction Hm as [|n ps' names found Hn _ IH].
      - destruct Hps.
      - destruct Hps as [<- | Hps].
        + exists n. split; [left; reflexivity|].
          destruct (positions_from O n (columns df)); [discriminate|].
          inversion Hn. subst. exact Hpin.
        + destruct (IH Hps) as [m [Hm1 Hm2]]. exists m.
          split; [right; exact Hm1|exact Hm2]. }
    destruct Hsrc as [n [Hn Hpos]].
    destruct (positions_from_name O n (columns df) p Hpos) as [q [-> Hq]].
    cbn [Nat.add] in Hp. rewrite (nth_error_nth _ _ _ Hq) in Hp. subst c.
    split; [exact Hn|]. apply nth_error_In with (n := q). exact Hq.
Qed.

Lemma lift_select_completes (names : list string) (df : DataFrame)
      (k : DataFrame -> ui unit) :
  Forall (fun n => In n (columns df)) names ->
  (forall d, completes (k d)) ->
  completes (ui_bind (lift (select_columns names df)) k).
Proof.
  intros Hall Hk. destruct (select_columns_present names df Hall) as [d ->].
  cbn [lift]. apply completes_bind; [|exact Hk].
  exists [], d. reflexivity.
Qed.

(** The chart section of the improved variant never ends the run. *)
Lemma V2_charts_complete (df : DataFrame) : completes (V2.charts df).
Proof.
  unfold V2.charts.
  apply completes_bind; [apply completes_emit|intros _].
  apply completes_bind; [|intros _].
  { destruct (has_column df "Temperature (°C)") eqn:E;
      [|apply completes_emit].
    apply lift_select_completes; [|intros d; apply completes_emit].
    constructor; [|constructor]. apply existsb_eqb_In. exact E. }
  apply completes_bind; [|intros _].
  { destruct (has_column df "Precipitation (mm)") eqn:E;
      [|apply completes_emit].
    apply lift_select_completes; [|intros d; apply completes_emit].
    constructor; [|constructor]. apply existsb_eqb_In. exact E. }
  cbv zeta.
  assert (Hall : Forall (fun n => In n (columns df))
                        (filter (has_column df)
                                ["Wind Speed (km/h)";
                                 "Relative Humidity (%)"])).
  { apply Forall_forall. intros n Hn. apply filter_In in Hn.
    apply existsb_eqb_In. apply Hn. }
  destruct (filter (has_column df)
                   ["Wind Speed (km/h)"; "Relative Humidity (%)"]);
    [apply completes_emit|].
  apply lift_select_completes; [exact Hall|intros d; apply completes_emit].
Qed.

(** The chart section of the original variant runs through when the four
    display columns are there. *)
Lemma V1_charts_complete (df : DataFrame) :
  (forall c, In c display_columns -> has_column df c = true) ->
  completes (V1.charts df).
Proof.
  intros Hall. unfold V1.charts.
  assert (Hin : forall c, In c display_columns -> In c (columns df)).
  { intros c Hc. apply existsb_eqb_In. apply Hall. exact Hc. }
  apply completes_bind; [apply completes_emit|intros _].
  apply lift_select_completes;
    [repeat constructor; apply Hin; cbn; tauto|intros d1].
  apply completes_bind; [apply completes_emit|intros _].
  apply lift_select_completes;
    [repeat constructor; apply Hin; cbn; tauto|intros d2].
  apply completes_bind; [apply completes_emit|intros _].
  apply lift_select_completes;
    [repeat constructor; apply Hin; cbn; tauto|intros d3].
  apply completes_emit.
Qed.

Lemma V1_summary_fails_only (fmt : nat -> cell -> result string)
      (df : DataFrame) (r : row) (rs : list row) :
  rectangular df -> rows df = r :: rs ->
  (forall c, In c display_columns -> has_column df c = true) ->
  fails_only_formatting fmt (V1.summary_cards fmt df).
Proof.
  intros Hrect Hrows Hall. unfold V1.summary_cards, V1.latest.
  rewrite (iloc_first df r rs Hrows). cbn [lift].
  assert (Hlen : List.length (snd r) = List.length (columns df)).
  { unfold rectangular in Hrect. rewrite Forall_forall in Hrect.
    apply Hrect. rewrite Hrows. left. reflexivity. }
  assert (Hin : forall c, In c display_columns -> In c (columns df)).
  { intros c Hc. apply existsb_eqb_In. apply Hall. exact Hc. }
  apply fails_only_formatting_next.
  apply fails_only_formatting_bind;
    [apply completes_fails_only; apply completes_emit | intros _].
  repeat (apply fails_only_formatting_bind;
          [apply lift_metric_fails_only;
           [exact Hlen | apply Hin; cbn; tauto]
          | intros ?;
            first [ apply fails_only_formatting_bind;
                    [apply completes_fails_only; apply completes_emit
                    | intros _]
                  | apply completes_fails_only; apply completes_emit ]]).
Qed.

Lemma nonempty_rows (df : DataFrame) :
  df_empty df = false -> exists r rs, rows df = r :: rs.
Proof.
  unfold df_empty. destruct (columns df); [discriminate|].
  destruct (rows df) as [|r rs]; [discriminate|]. intros _. eauto.
Qed.

Lemma run_Uncaught (m : ui unit) (ws : list widget) (e : exn) :
  run m = (ws, Uncaught e) -> m = (ws, Halt (Uncaught e)).
Proof.
  unfold run. destruct m as [w [a|h]]; intros H; inversion H. reflexivity.
Qed.

Ltac notice_iff :=
  split;
  [ intros H;
    first [ solve [repeat split; reflexivity]
          | exfalso; cbn [In] in H;
            repeat (destruct H as [H|H]; try discriminate H);
            contradiction ]
  | intros H;
    first [ solve [cbn [In]; tauto]
          | exfalso;
            first [ discriminate H
                  | destruct H as [Ha Hb];
                    first [discriminate Ha | discriminate Hb] ] ] ].

(** X2: the chart section of the improved variant never fails.  It writes
    the tabs and one widget per tab: the notice of a tab is on the page
    exactly when its column is absent (for the third tab, when wind speed
    and humidity are both absent), and every chart shows columns of the
    table, among the four display columns, over the index of the table. *)
Theorem improved_charts_never_fail (df : DataFrame) :
  exists ws,
    V2.charts df = (ws, Next tt) /\
    List.length ws = 4%nat /\
    (In (st_info "Temperature not available for this location/time.") ws
     <-> has_column df "Temperature (°C)" = false) /\
    (In (st_info "Precipitation not available for this location/time.") ws
     <-> has_column df "Precipitation (mm)" = false) /\
    (In (st_info "Wind/Humidity not available for this location/time.") ws
     <-> has_column df "Wind Speed (km/h)" = false /\
         has_column df "Relative Humidity (%)" = false) /\
    (forall d, In (st_line_chart d) ws \/ In (st_area_chart d) ws ->
               index d = index df /\
               forall c, In c (columns d) ->
                         In c display_columns /\ In c (columns df)).
Proof.
  unfold V2.charts. cbv zeta. cbn [filter].
  destruct (has_column df "Temperature (°C)") eqn:E1;
    destruct (has_column df "Precipitation (mm)") eqn:E2;
    destruct (has_column df "Wind Speed (km/h)") eqn:E3;
    destruct (has_column df "Relative Humidity (%)") eqn:E4;
    repeat match goal with
           | |- context [select_columns ?names df] =>
               let d := fresh "d" in
               let Hd := fresh "Hd" in
               destruct (select_columns_present names df) as [d Hd];
               [ repeat constructor; apply existsb_eqb_In; assumption
               | rewrite Hd ]
           end;
    cbn [emit lift ui_bind app]; eexists; (split; [reflexivity|]);
    (split; [reflexivity|]);
    (split; [notice_iff|]); (split; [notice_iff|]); (split; [notice_iff|]);
    intros chart [H|H]; cbn [In] in H;
    repeat (destruct H as [H|H]; try discriminate H);
    try contradiction;
    inversion H; subst;
    match goal with
    | Hd : select_columns ?names df = Ok ?x
      |- _ /\ (forall c, In c (columns ?x) -> _) =>
        destruct (select_columns_Ok names df x Hd) as [Hi Hc];
        split; [exact Hi|];
        intros c Hin; destruct (Hc c Hin) as [Hn Hdf];
        split; [cbn in Hn |- *; tauto|exact Hdf]
    end.
Qed.

(** X3: in the improved variant no run ends on a missing column.  Whatever
    the answer and the hour count, when the script ends with an uncaught
    exception, that exception comes from formatting a value of the summary
    row. *)
Theorem improved_script_never_misses_a_column
        (parse : cell -> parsed) (fmt : nat -> cell -> result string)
        (get : http_outcome forecast_json) (hours : Z)
        (ws : list widget) (e : exn) :
  run (V2.weather_section parse fmt get hours) = (ws, Uncaught e) ->
  formatting_error fmt e.
Proof.
  intros H. apply run_Uncaught in H. revert H. unfold V2.weather_section.
  destruct (V2.fetch_hourly_weather parse get hours) as [df|e0] eqn:Hf;
    [|intros H; inversion H].
  destruct (df_empty df) eqn:He; [intros H; inversion H|].
  destruct (nonempty_rows df He) as [r [rs Hrows]].
  pose proof (V2_rectangular parse get hours df Hf) as Hrect.
  intros H.
  assert (Hs : fails_only_formatting
                 fmt
                 (ui_bind (V2.summary_cards fmt df)
                    (fun _ => ui_bind (V2.charts df)
                       (fun _ => ui_bind (emit (st_markdown "---"))
                          (fun _ => emit (st_caption data_source_caption)))))).
  { apply fails_only_formatting_bind;
      [apply (V2_summary_fails_only fmt df r rs Hrect Hrows)|intros _].
    apply completes_fails_only.
    apply completes_bind; [apply V2_charts_complete|intros _].
    apply completes_bind; intros; apply completes_emit. }
  destruct (Hs ws (Uncaught e) H) as [e' [He' Hfmt]].
  inversion He'. subst. exact Hfmt.
Qed.

Lemma improved_script_never_misses_a_column_witness :
  formatting_error Instances.format_value ValueError.
Proof.
  apply (improved_script_never_misses_a_column
           Instances.to_datetime_scalar Instances.format_value
           (Instances.answer
              [("time", [CStr "2024-01-01T00:00"]);
               ("temperature_2m", [CStr "n/a"])]) 48
           [st_columns 4]).
  vm_compute. reflexivity.
Defined.

(** X4: in the original variant, on a returned table that has the four
    display columns no run ends on a missing column either: an uncaught
    exception then comes from formatting a value of the summary row. *)
Theorem original_script_with_all_columns
        (parse : cell -> parsed) (fmt : nat -> cell -> result string)
        (get : http_outcome forecast_json) (hours : Z) (df : DataFrame)
        (ws : list widget) (e : exn) :
  V1.fetch_hourly_weather parse get hours = Ok df ->
  (forall c, In c display_columns -> has_column df c = true) ->
  run (V1.weather_section parse fmt get hours) = (ws, Uncaught e) ->
  formatting_error fmt e.
Proof.
  intros Hf Hall H. apply run_Uncaught in H. revert H.
  unfold V1.weather_section. rewrite Hf.
  destruct (df_empty df) eqn:He; [intros H; inversion H|].
  destruct (nonempty_rows df He) as [r [rs Hrows]].
  pose proof (V1_rectangular parse get hours df Hf) as Hrect.
  intros H.
  assert (Hs : fails_only_formatting
                 fmt
                 (ui_bind (V1.summary_cards fmt df)
                    (fun _ => ui_bind (V1.charts df)
                       (fun _ => ui_bind (emit (st_markdown "---"))
                          (fun _ => emit (st_caption data_source_caption)))))).
  { apply fails_only_formatting_bind;
      [apply (V1_summary_fails_only fmt df r rs Hrect Hrows Hall)|intros _].
    apply completes_fails_only.
    apply completes_bind; [apply (V1_charts_complete df Hall)|intros _].
    apply completes_bind; intros; apply completes_emit. }
  destruct (Hs ws (Uncaught e) H) as [e' [He' Hfmt]].
  inversion He'. subst. exact Hfmt.
Qed.

Lemma original_script_with_all_columns_witness :
  formatting_error Instances.format_value TypeError.
Proof.
  apply (original_script_with_all_columns
           Instances.to_datetime_scalar Instances.format_value
           (Instances.answer
              [("time", [CStr "2024-01-01T00:00"]);
               ("temperature_2m", [CNum 215 1]);
               ("precipitation", [CNull]);
               ("windspeed_10m", [CNum 72 1]);
               ("relative_humidity_2m", [CNum 64 0])]) 48
           {| columns := ["Temperature (°C)"; "Precipitation (mm)";
                          "Wind Speed (km/h)"; "Relative Humidity (%)"];
              rows := [(CTime 1704067200000000000,
                        [CNum 215 1; CNull; CNum 72 1; CNum 64 0])] |}
           [st_columns 4; st_metric "Temperature (now)" "21.5 °C";
            st_metric "Wind Speed (now)" "7 km/h"]).
  - vm_compute. reflexivity.
  - intros c Hc. cbn in Hc.
    destruct Hc as [<- | [<- | [<- | [<- | []]]]]; reflexivity.
  - vm_compute. reflexivity.
Defined.

(** ** Row counts, and when the two variants agree *)

Lemma time_array_length (d : hourly_object) (df0 : DataFrame) :
  pd_DataFrame d = Ok df0 -> In "time" (map fst d) ->
  List.length (time_array d) = height d.
Proof.
  intros Hdf Hin. destruct (pd_DataFrame_Ok d df0 Hdf) as [Hlen _].
  destruct (position_Some_In "time" (map fst d) Hin) as [p Hp].
  rewrite <- (time_cells d (height d) p Hlen Hp).
  rewrite !length_map. apply length_seq.
Qed.

Lemma converted_rows_length (parse : cell -> parsed) (d : hourly_object)
      (df0 : DataFrame) :
  pd_DataFrame d = Ok df0 -> In "time" (map fst d) ->
  List.length (converted_rows parse d) = List.length (time_array d).
Proof.
  intros Hdf Hin.
  transitivity (List.length (map fst (converted_rows parse d))).
  - symmetry. apply length_map.
  - rewrite (converted_rows_index parse d df0 Hdf Hin). apply length_map.
Qed.

(** X5: for a positive hour count [H] the improved variant returns exactly
    min(H, number of timestamps that parse) rows; the original variant, on
    an answer with a time field, exactly min(H, number of rows sent). *)
Theorem fetched_row_count
        (parse : cell -> parsed) (get : http_outcome forecast_json)
        (H : Z) (df : DataFrame) :
  0 < H ->
  (V2.fetch_hourly_weather parse get H = Ok df ->
   Z.of_nat (List.length (rows df))
   = Z.min H (Z.of_nat (List.length
                          (parsed_times parse (time_array (upstream get)))))) /\
  (V1.fetch_hourly_weather parse get H = Ok df ->
   In "time" (upstream_keys (upstream get)) ->
   Z.of_nat (List.length (rows df))
   = Z.min H (Z.of_nat (List.length (time_array (upstream get))))).
Proof.
  intros HH. split.
  - intros Hf.
    destruct (V2_fetch_inv parse get H df Hf) as [s [js [df0 [-> [Hs Hdf]]]]].
    cbn [upstream].
    rewrite (V2_fetch_Ok parse s js H df0 Hs Hdf) in Hf.
    inversion Hf as [Hdf']. clear Hf. cbn [rows].
    assert (E : (0 <? H) = true) by (apply Z.ltb_lt; exact HH).
    rewrite E, slice_to_length by lia. rewrite sort_rows_length.
    f_equal. f_equal.
    transitivity
      (List.length (map fst (parsed_rows parse (hourly_or_empty js)))).
    + symmetry. apply length_map.
    + rewrite (parsed_rows_labels parse _ df0 Hdf). apply length_map.
  - intros Hf Hin.
    destruct (V1_fetch_inv parse get H df Hf) as [s [js [df0 [-> [Hs Hdf]]]]].
    cbn [upstream] in *.
    rewrite (V1_fetch_Ok parse s js H df0 Hs Hdf) in Hf.
    destruct (pd_DataFrame_Ok _ df0 Hdf) as [_ Heq].
    assert (Ht : has_column df0 "time" = true).
    { unfold has_column. rewrite Heq. cbn [columns].
      apply existsb_eqb_In. exact Hin. }
    rewrite Ht in Hf.
    destruct (existsb _ (time_array (hourly_or_empty js))); [discriminate|].
    inversion Hf as [Hdf']. clear Hf. cbn [rows].
    rewrite slice_to_length by lia.
    rewrite (converted_rows_length parse _ df0 Hdf Hin). reflexivity.
Qed.

Lemma fetched_row_count_witness :
  0 < 2 /\
  Z.of_nat
    (List.length
       (rows {| columns := [];
                rows := [(CTime 1704067200000000000, []);
                         (CTime 1704070800000000000, [])] |}))
  = Z.min 2
      (Z.of_nat
         (List.length
            (parsed_times Instances.to_datetime_scalar
               [CStr "2024-01-01T02:00"; CStr "2024-01-01T01:00";
                CStr "2024-01-01T00:00"]))).
Proof.
  split; [reflexivity|].
  destruct (fetched_row_count Instances.to_datetime_scalar
              (Instances.answer
                 [("time", [CStr "2024-01-01T02:00"; CStr "2024-01-01T01:00";
                            CStr "2024-01-01T00:00"])]) 2
              {| columns := [];
                 rows := [(CTime 1704067200000000000, []);
                          (CTime 1704070800000000000, [])] |}
              eq_refl) as [W _].
  apply W. vm_compute. reflexivity.
Defined.

(** X6: the original variant slices with Python's [df.iloc[:hours]] whatever
    the sign of [hours]: on an answer with a time field a negative [hours]
    cuts that many rows off the end, and [hours = 0] leaves no row, so that
    the page shows the "no data" warning and stops. *)
Theorem original_nonpositive_hours
        (parse : cell -> parsed) (fmt : nat -> cell -> result string)
        (get : http_outcome forecast_json) (hours : Z) (df : DataFrame) :
  hours <= 0 ->
  V1.fetch_hourly_weather parse get hours = Ok df ->
  In "time" (upstream_keys (upstream get)) ->
  (hours < 0 ->
   Z.of_nat (List.length (rows df))
   = Z.max 0 (Z.of_nat (List.length (time_array (upstream get))) + hours)) /\
  (hours = 0 ->
   rows df = [] /\
   run (V1.weather_section parse fmt get hours)
   = ([st_warning no_data_warning], Stopped)).
Proof.
  intros Hh Hf Hin. pose proof Hf as Hf0.
  destruct (V1_fetch_inv parse get hours df Hf) as [s [js [df0 [-> [Hs Hdf]]]]].
  cbn [upstream] in *.
  rewrite (V1_fetch_Ok parse s js hours df0 Hs Hdf) in Hf.
  destruct (pd_DataFrame_Ok _ df0 Hdf) as [_ Heq].
  assert (Ht : has_column df0 "time" = true).
  { unfold has_column. rewrite Heq. cbn [columns].
    apply existsb_eqb_In. exact Hin. }
  rewrite Ht in Hf.
  destruct (existsb _ (time_array (hourly_or_empty js))); [discriminate|].
  inversion Hf as [Hdf']. clear Hf.
  pose proof (converted_rows_length parse _ df0 Hdf Hin) as Hlen.
  split.
  - intros Hneg. cbn [rows]. unfold slice_to.
    apply Z.ltb_lt in Hneg. rewrite Hneg.
    rewrite length_firstn, Hlen. clear - Hh. lia.
  - intros ->.
    assert (Hrows : rows df = []).
    { rewrite <- Hdf'. reflexivity. }
    split; [rewrite Hdf'; exact Hrows|].
    unfold V1.weather_section. rewrite Hf0.
    assert (He : df_empty df = true).
    { unfold df_empty. rewrite Hrows. destruct (columns df); reflexivity. }
    rewrite He. reflexivity.
Qed.

Lemma original_nonpositive_hours_witness :
  -1 <= 0 /\ -1 < 0 /\
  Z.of_nat
    (List.length
       (rows {| columns := ["Temperature (°C)"];
                rows := [(CTime 1704067200000000000, [CNum 215 1]);
                         (CTime 1704070800000000000, [CNum 220 1])] |}))
  = Z.max 0
      (Z.of_nat
         (List.length
            [CStr "2024-01-01T00:00"; CStr "2024-01-01T01:00";
             CStr "2024-01-01T02:00"]) + -1).
Proof.
  split; [discriminate|]. split; [reflexivity|].
  apply (original_nonpositive_hours Instances.to_datetime_scalar
           Instances.format_value
           (Instances.answer
              [("time", [CStr "2024-01-01T00:00"; CStr "2024-01-01T01:00";
                         CStr "2024-01-01T02:00"]);
               ("temperature_2m", [CNum 215 1; CNum 220 1; CNum 225 1])])
           (-1)).
  - discriminate.
  - vm_compute. reflexivity.
  - cbn. tauto.
  - reflexivity.
Defined.

Lemma sort_rows_sorted_id (l : list row) :
  Forall timed l -> StronglySorted by_time l -> sort_rows l = l.
Proof.
  induction l as [|r l IH]; intros Ht Hs; [reflexivity|].
  inversion Ht as [|? ? Hr Ht']. subst.
  inversion Hs as [|? ? Hs' Hall]. subst.
  cbn [sort_rows fold_right]. fold (sort_rows l). rewrite (IH Ht' Hs').
  destruct l as [|s l]; [reflexivity|]. cbn [insert_row].
  inversion Hall as [|? ? Hrs _]. subst.
  inversion Ht' as [|? ? Hts _]. subst.
  unfold timed in Hr, Hts. unfold by_time in Hrs.
  destruct (fst r); try discriminate. destruct (fst s); try discriminate.
  cbn [label_leb time_of] in *.
  replace (t <=? t0) with true; [reflexivity|].
  symmetry. apply Z.leb_le. exact Hrs.
Qed.

Lemma by_time_of_labels (l : list row) (ts : list Z) :
  map fst l = map CTime ts -> StronglySorted Z.le ts ->
  StronglySorted by_time l.
Proof.
  intros Hl Hs.
  assert (Hts : ts = map (fun r : row => time_of (fst r)) l).
  { transitivity (map time_of (map fst l)).
    - rewrite Hl, map_map. simpl. symmetry. apply map_id.
    - apply map_map. }
  rewrite Hts in Hs. clear Hl Hts.
  induction l as [|r l IH]; [constructor|].
  cbn [map] in Hs. inversion Hs as [|? ? Hs' Hall]. subst.
  constructor; [apply IH; exact Hs'|].
  rewrite Forall_map in Hall. exact Hall.
Qed.

Lemma flat_map_singletons {A B : Type} (f : A -> list B) (g : A -> B)
      (l : list A) :
  (forall a, In a l -> f a = [g a]) -> flat_map f l = map g l.
Proof.
  induction l as [|a l IH]; intros H; [reflexivity|].
  cbn [flat_map map]. rewrite (H a (or_introl eq_refl)).
  rewrite IH; [reflexivity|]. intros b Hb. apply H. right. exact Hb.
Qed.

(** When every time cell parses, the parsed rows are all the rows. *)
Lemma parsed_rows_all (parse : cell -> parsed) (d : hourly_object)
      (df0 : DataFrame) :
  pd_DataFrame d = Ok df0 ->
  Forall (fun c => exists t, parse c = Parsed t) (time_array d) ->
  parsed_rows parse d = converted_rows parse d.
Proof.
  intros Hdf Hall. unfold parsed_rows, converted_rows.
  destruct (position "time" (map fst d)) as [p|] eqn:Hp; [|reflexivity].
  assert (Hin : In "time" (map fst d)).
  { apply existsb_eqb_In.
    destruct (existsb (String.eqb "time") (map fst d)) eqn:E;
      [reflexivity|].
    apply existsb_eqb_not_In in E. rewrite (position_None _ _ E) in Hp.
    discriminate. }
  pose proof (time_array_length d df0 Hdf Hin) as Hlen.
  apply flat_map_singletons. intros i Hi. apply in_seq in Hi.
  rewrite Forall_forall in Hall.
  destruct (Hall (nth i (time_array d) CNull)) as [t Ht].
  { apply nth_In. lia. }
  unfold coerced. rewrite Ht. reflexivity.
Qed.

(** X7: on a clean answer the two variants return the same table: when the
    call succeeds, the table can be built and has a time field and at least
    one row, every time cell parses, the timestamps come in ascending
    order, and the hour count is positive. *)
Theorem variants_agree_on_clean_answers
        (parse : cell -> parsed) (s : Z) (js : forecast_json) (H : Z)
        (df0 : DataFrame) :
  is_error_status s = false ->
  pd_DataFrame (hourly_or_empty js) = Ok df0 ->
  In "time" (upstream_keys (hourly_or_empty js)) ->
  height (hourly_or_empty js) <> O ->
  Forall (fun c => exists t, parse c = Parsed t)
         (time_array (hourly_or_empty js)) ->
  StronglySorted Z.le (parsed_times parse (time_array (hourly_or_empty js))) ->
  0 < H ->
  V1.fetch_hourly_weather parse (Response s (Some js)) H
  = V2.fetch_hourly_weather parse (Response s (Some js)) H.
Proof.
  intros Hs Hdf Hin Hh Hall Hsorted HH.
  rewrite (V1_fetch_Ok parse s js H df0 Hs Hdf).
  rewrite (V2_fetch_Ok parse s js H df0 Hs Hdf).
  destruct (pd_DataFrame_Ok _ df0 Hdf) as [_ Heq].
  assert (Ht : has_column df0 "time" = true).
  { unfold has_column. rewrite Heq. cbn [columns].
    apply existsb_eqb_In. exact Hin. }
  rewrite Ht. cbn [negb orb].
  assert (He : df_empty df0 = false).
  { rewrite Heq, (df_empty_height _ Hin).
    apply Nat.eqb_neq. exact Hh. }
  rewrite He.
  assert (Hu : existsb (fun c => is_unparsable (parse c))
                       (time_array (hourly_or_empty js)) = false).
  { destruct (existsb _ (time_array (hourly_or_empty js))) eqn:E;
      [|reflexivity].
    apply existsb_exists in E. destruct E as [c [Hc Hcu]].
    rewrite Forall_forall in Hall. destruct (Hall c Hc) as [t Hp].
    rewrite Hp in Hcu. discriminate. }
  rewrite Hu.
  assert (E : (0 <? H) = true) by (apply Z.ltb_lt; exact HH).
  rewrite E.
  pose proof (parsed_rows_labels parse _ df0 Hdf) as Hlab.
  rewrite sort_rows_sorted_id.
  - rewrite (parsed_rows_all parse _ df0 Hdf Hall). reflexivity.
  - apply (timed_labels _ _ Hlab).
  - apply (by_time_of_labels _ _ Hlab Hsorted).
Qed.

Lemma variants_agree_on_clean_answers_witness :
  V1.fetch_hourly_weather Instances.to_datetime_scalar
    (Response 200
       (Some {| hourly :=
                  Some [("time", [CStr "2024-01-01T00:00";
                                  CStr "2024-01-01T01:00"]);
                        ("temperature_2m", [CNum 215 1; CNum 220 1])] |}))
    1
  = V2.fetch_hourly_weather Instances.to_datetime_scalar
      (Response 200
         (Some {| hourly :=
                    Some [("time", [CStr "2024-01-01T00:00";
                                    CStr "2024-01-01T01:00"]);
                          ("temperature_2m", [CNum 215 1; CNum 220 1])] |}))
      1.
Proof.
  apply (variants_agree_on_clean_answers Instances.to_datetime_scalar 200
           {| hourly :=
                Some [("time", [CStr "2024-01-01T00:00";
                                CStr "2024-01-01T01:00"]);
                      ("temperature_2m", [CNum 215 1; CNum 220 1])] |}
           1
           {| columns := ["time"; "temperature_2m"];
              rows := [(range_label 0, [CStr "2024-01-01T00:00"; CNum 215 1]);
                       (range_label 1,
                        [CStr "2024-01-01T01:00"; CNum 220 1])] |}).
  - reflexivity.
  - reflexivity.
  - cbn. tauto.
  - cbn. discriminate.
  - repeat constructor; eexists; vm_compute; reflexivity.
  - vm_compute. repeat constructor. discriminate.
  - reflexivity.
Defined.

(** ** A body that cannot be used *)

Lemma pd_DataFrame_ragged (d : hourly_object) (kv : string * list cell) :
  In kv d -> List.length (snd kv) <> height d ->
  pd_DataFrame d = Raise ValueError.
Proof.
  unfold pd_DataFrame. destruct d as [|[k a] others]; [intros []|].
  cbn [height]. intros [<- | Hin] Hne; [exfalso; apply Hne; reflexivity|].
  destruct (forallb _ others) eqn:E; [|reflexivity].
  exfalso. rewrite forallb_forall in E. apply Hne. apply Nat.eqb_eq.
  apply (E kv Hin).
Qed.

(** X8: an answer with a good status whose body is not JSON, or whose
    arrays differ in length, is shown as an error in both variants: the
    page holds the error message (JSONDecodeError, ValueError) and nothing
    else, and the run stops. *)
Theorem unusable_body_is_surfaced
        (parse : cell -> parsed) (fmt : nat -> cell -> result string)
        (s : Z) (body : option forecast_json) (hours : Z) :
  is_error_status s = false ->
  body = None \/
  (exists js kv, body = Some js /\ In kv (hourly_or_empty js) /\
                 List.length (snd kv) <> height (hourly_or_empty js)) ->
  exists e,
    (e = JSONDecodeError \/ e = ValueError) /\
    run (V1.weather_section parse fmt (Response s body) hours)
    = ([st_error e], Stopped) /\
    run (V2.weather_section parse fmt (Response s body) hours)
    = ([st_error e], Stopped).
Proof.
  intros Hs [-> | [js [kv [-> [Hin Hne]]]]].
  - exists JSONDecodeError. split; [left; reflexivity|].
    unfold V1.weather_section, V2.weather_section,
      V1.fetch_hourly_weather, V2.fetch_hourly_weather.
    cbn [requests_get bind]. unfold raise_for_status. cbn [status_code].
    rewrite Hs. split; reflexivity.
  - exists ValueError. split; [right; reflexivity|].
    pose proof (pd_DataFrame_ragged _ kv Hin Hne) as Hr.
    unfold V1.weather_section, V2.weather_section,
      V1.fetch_hourly_weather, V2.fetch_hourly_weather.
    cbn [requests_get bind]. unfold raise_for_status. cbn [status_code].
    rewrite Hs. cbn [bind response_json parsed_body]. cbv zeta.
    rewrite Hr. split; reflexivity.
Qed.

Lemma unusable_body_is_surfaced_witness :
  exists e,
    (e = JSONDecodeError \/ e = ValueError) /\
    run (V1.weather_section Instances.to_datetime_scalar
           Instances.format_value
           (Response 200
              (Some {| hourly :=
                         Some [("time", [CStr "2024-01-01T00:00"]);
                               ("temperature_2m", [])] |})) 48)
    = ([st_error e], Stopped) /\
    run (V2.weather_section Instances.to_datetime_scalar
           Instances.format_value
           (Response 200
              (Some {| hourly :=
                         Some [("time", [CStr "2024-01-01T00:00"]);
                               ("temperature_2m", [])] |})) 48)
    = ([st_error e], Stopped).
Proof.
  apply (unusable_body_is_surfaced Instances.to_datetime_scalar
           Instances.format_value 200).
  - reflexivity.
  - right. eexists. exists ("temperature_2m", @nil cell).
    split; [reflexivity|]. split; [right; left; reflexivity|].
    cbn. discriminate.
Defined.

(** ** The location selector *)

(** X9: both variants pick the location the same way.  Without a usable
    click (no dict, no ["last_clicked"], or a falsy one) both give the
    default coordinates; with a click that carries "lat" and "lng" both
    give those two values; with a click that lacks "lat" the original
    variant goes on with [None] for the latitude, where the improved
    variant raises a KeyError. *)
Theorem selectors_agree (map_state : json) :
  (last_click map_state = None ->
   Selector.original map_state = Ok (DEFAULT_LAT, DEFAULT_LON) /\
   Selector.improved map_state = Ok (DEFAULT_LAT, DEFAULT_LON)) /\
  (forall fields lat lon,
      last_click map_state = Some (JObj fields) ->
      assoc "lat" fields = Some lat -> assoc "lng" fields = Some lon ->
      Selector.original map_state = Ok (lat, lon) /\
      Selector.improved map_state = Ok (lat, lon)) /\
  (forall fields,
      last_click map_state = Some (JObj fields) ->
      assoc "lat" fields = None ->
      (exists lon, Selector.original map_state = Ok (JNull, lon)) /\
      Selector.improved map_state = Raise (KeyError "lat")).
Proof.
  unfold last_click, Selector.original, Selector.improved.
  destruct map_state as [| b | m e | s | items | top];
    try (repeat split; intros; first [reflexivity | discriminate]).
  unfold py_in. cbn [py_get py_item].
  destruct (assoc "last_clicked" top) as [v|] eqn:Ha.
  - cbn [bind]. destruct (truthy v) eqn:Hv.
    + split; [intros H; discriminate|]. split.
      * intros fields lat lon H Hlat Hlng. inversion H. subst v.
        cbn [py_get py_item bind]. rewrite Hlat, Hlng. split; reflexivity.
      * intros fields H Hlat. inversion H. subst v.
        cbn [py_get py_item bind]. rewrite Hlat. split; [|reflexivity].
        eexists. reflexivity.
    + split; [intros _; split; reflexivity|].
      split; intros; discriminate.
  - cbn [bind truthy].
    split; [intros _; split; reflexivity|]. split; intros; discriminate.
Qed.

Lemma selectors_agree_witness :
  Selector.original
    (JObj [("last_clicked", JObj [("lat", JNum 4885 2); ("lng", JNum 235 2)])])
  = Ok (JNum 4885 2, JNum 235 2) /\
  Selector.improved
    (JObj [("last_clicked", JObj [("lat", JNum 4885 2); ("lng", JNum 235 2)])])
  = Ok (JNum 4885 2, JNum 235 2).
Proof.
  apply (selectors_agree
           (JObj [("last_clicked",
                   JObj [("lat", JNum 4885 2); ("lng", JNum 235 2)])]))
    with (fields := [("lat", JNum 4885 2); ("lng", JNum 235 2)]);
    reflexivity.
Defined.

(** ** The label of the geocoder *)

Lemma as_strings_truthy (l : list json) (ss : list string) :
  as_strings (filter truthy l) = Ok ss ->
  Forall (fun s => s <> "") ss /\ (List.length ss <= List.length l)%nat.
Proof.
  revert ss. induction l as [|v l IH]; intros ss H.
  - inversion H. split; [constructor|simpl; lia].
  - cbn [filter] in H. destruct (truthy v) eqn:Hv.
    + destruct v; try discriminate H.
      cbn [as_strings] in H.
      destruct (as_strings (filter truthy l)) as [ss'|e] eqn:E;
        [|discriminate H].
      cbn [bind] in H. inversion H. subst ss.
      destruct (IH ss' eq_refl) as [Hne Hlen]. split.
      * constructor; [|exact Hne]. intros ->. discriminate Hv.
      * simpl. lia.
    + destruct (IH ss H) as [Hne Hlen]. split; [exact Hne|simpl; lia].
Qed.

Lemma truthy_or_text (v : json) : truthy (py_or v (JStr "")) = truthy v.
Proof. unfold py_or. destruct (truthy v) eqn:E; [exact E|reflexivity]. Qed.

Lemma as_strings_cons (v : json) (l : list json) :
  as_strings (v :: l) <> Ok [].
Proof.
  destruct v; cbn [as_strings]; try discriminate.
  destruct (as_strings l); cbn [bind]; discriminate.
Qed.

Lemma concat_not_empty (sep : string) (parts : list string) :
  parts <> [] -> Forall (fun s => s <> "") parts ->
  String.concat sep parts <> "".
Proof.
  destruct parts as [|p parts]; [intros H; contradiction|].
  intros _ Hall. inversion Hall as [|? ? Hp _]. subst.
  destruct p as [|c p]; [contradiction|].
  cbn [String.concat]. destruct parts; cbn; discriminate.
Qed.

(** What the [try] block read when it returned a label. *)
Lemma reverse_geocode_try_Ok (get : http_outcome json) (label : string) :
  reverse_geocode_try get = Ok (Some label) ->
  exists s body results fields,
    get = Response s (Some body) /\ is_error_status s = false /\
    py_get (py_or body (JObj [])) "results" = Ok results /\
    py_first (py_or results (JArr [])) = Ok (JObj fields) /\
    str_join ", "
      (filter truthy
         [match assoc "name" fields with Some x => x | None => JNull end;
          py_or (py_or
                   match assoc "admin1" fields with
                   | Some x => x | None => JNull end
                   match assoc "admin2" fields with
                   | Some x => x | None => JNull end)
                (JStr "");
          py_or match assoc "country" fields with
                | Some x => x | None => JNull end
                (JStr "")])
    = Ok label.
Proof.
  unfold reverse_geocode_try. destruct get as [|s [body|]].
  - discriminate.
  - cbn [requests_get bind]. unfold raise_for_status. cbn [status_code].
    destruct (is_error_status s) eqn:Hs; [discriminate|].
    cbn [bind response_json parsed_body]. cbv zeta.
    destruct (py_get (py_or body (JObj [])) "results") as [results|e] eqn:Hr;
      [|discriminate].
    cbn [bind].
    destruct (truthy (py_or results (JArr []))); cbv iota;
      [|intros H0; discriminate H0].
    destruct (py_first (py_or results (JArr []))) as [item|e] eqn:Hi;
      cbn [bind]; [|discriminate].
    destruct item as [| | | | |fields];
      try (cbn [py_get bind]; discriminate).
    cbn [py_get bind].
    destruct (str_join ", " _) as [l|e] eqn:Hj; cbn [bind]; [|discriminate].
    intros H. inversion H. subst l.
    exists s, body, results, fields. repeat split; try assumption.
  - cbn [requests_get bind]. unfold raise_for_status. cbn [status_code].
    destruct (is_error_status s); discriminate.
Qed.



(** X11: [reverse_geocode] returns the empty string only when the lookup
    succeeded and the first result is a dict whose name, admin1, admin2
    and country are all missing or falsy. *)
Theorem empty_label_only_from_empty_result
        (float : Type) (format_f : nat -> float -> string)
        (get : http_outcome json) (lat lon : float) :
  reverse_geocode float format_f get lat lon = "" ->
  exists s body results fields,
    get = Response s (Some body) /\ is_error_status s = false /\
    py_get (py_or body (JObj [])) "results" = Ok results /\
    py_first (py_or results (JArr [])) = Ok (JObj fields) /\
    Forall (fun k => truthy match assoc k fields with
                            | Some x => x
                            | None => JNull
                            end = false)
           ["name"; "admin1"; "admin2"; "country"].
Proof.
  intros H.
  destruct (reverse_geocode_cases float format_f get lat lon)
    as [[label [Ht Hl]] | Hfb].
  - rewrite H in Hl. subst label.
    destruct (reverse_geocode_try_Ok get "" Ht)
      as [s [body [results [fields [Hg [Hs [Hr [Hi Hj]]]]]]]].
    exists s, body, results, fields. repeat split; try assumption.
    unfold str_join in Hj.
    destruct (as_strings (filter truthy _)) as [ss|e] eqn:E; [|discriminate].
    cbn [bind] in Hj. inversion Hj as [Hc].
    destruct (as_strings_truthy _ ss E) as [Hne _].
    assert (Hss : ss = []).
    { destruct ss as [|p ss]; [reflexivity|]. exfalso.
      apply (concat_not_empty ", " (p :: ss)); [discriminate|exact Hne|].
      exact Hc. }
    subst ss. clear Hj Hc Hne.
    match type of E with
    | as_strings (filter truthy [?n; ?a; ?c]) = _ =>
        assert (Hn : truthy n = false /\ truthy a = false
                     /\ truthy c = false)
    end.
    { match type of E with
      | as_strings (filter truthy [?n; ?a; ?c]) = _ =>
          destruct (truthy n) eqn:E1;
          [exfalso; cbn [filter] in E; rewrite E1 in E;
           exact (as_strings_cons _ _ E)|];
          destruct (truthy a) eqn:E2;
          [exfalso; cbn [filter] in E; rewrite E1, E2 in E;
           exact (as_strings_cons _ _ E)|];
          destruct (truthy c) eqn:E3;
          [exfalso; cbn [filter] in E; rewrite E1, E2, E3 in E;
           exact (as_strings_cons _ _ E)|]
      end.
      repeat split; reflexivity. }
    destruct Hn as [H1 [H2 H3]].
    rewrite truthy_or_text in H3. rewrite truthy_or_text in H2.
    unfold py_or in H2.
    destruct (truthy match assoc "admin1" fields with
                     | Some x => x | None => JNull end) eqn:Ha1;
      [rewrite Ha1 in H2; discriminate|].
    repeat constructor; assumption.
  - exfalso. rewrite H in Hfb. symmetry in Hfb.
    apply (coordinate_text_not_empty float format_f lat lon Hfb).
Qed.

Lemma empty_label_only_from_empty_result_witness :
  exists s body results fields,
    Response 200 (Some (JObj [("results", JArr [JObj [("name", JStr "")]])]))
    = Response s (Some body) /\ is_error_status s = false /\
    py_get (py_or body (JObj [])) "results" = Ok results /\
    py_first (py_or results (JArr [])) = Ok (JObj fields) /\
    Forall (fun k => truthy match assoc k fields with
                            | Some x => x
                            | None => JNull
                            end = false)
           ["name"; "admin1"; "admin2"; "country"].
Proof.
  apply (empty_label_only_from_empty_result
           Instances.degrees Instances.format_degrees
           (Response 200
              (Some (JObj [("results", JArr [JObj [("name", JStr "")]])])))
           10 20).
  reflexivity.
Defined.

Lemma reverse_geocode_fallback_witness :
  reverse_geocode Instances.degrees Instances.format_degrees
    (Response 200 (Some (JObj [("results", JArr [])]))) 10 20
  = coordinate_text Instances.degrees Instances.format_degrees 10 20.
Proof.
  apply (reverse_geocode_fallback Instances.degrees Instances.format_degrees).
  right. right. exists 200, [("results", JArr [])].
  split; [reflexivity|]. right. reflexivity.
Defined.

(** X13: for a first result whose name, admin1, admin2 and country are each
    missing, null or a string, the label is the name, then admin1 (admin2
    when admin1 is empty), then the country, the empty ones left out, joined
    with ", ". *)
Theorem label_of_textual_result
        (float : Type) (format_f : nat -> float -> string)
        (s : Z) (body_fields fields : list (string * json))
        (rest : list json) (lat lon : float) :
  is_error_status s = false ->
  assoc "results" body_fields = Some (JArr (JObj fields :: rest)) ->
  Forall (textual fields) ["name"; "admin1"; "admin2"; "country"] ->
  reverse_geocode float format_f (Response s (Some (JObj body_fields)))
                  lat lon
  = String.concat ", "
      (filter nonempty
         [field_text fields "name";
          if nonempty (field_text fields "admin1")
          then field_text fields "admin1"
          else field_text fields "admin2";
          field_text fields "country"]).
Proof.
  intros Hs Hres Htext.
  assert (Hget : py_get (py_or (JObj body_fields) (JObj [])) "results"
                 = Ok (JArr (JObj fields :: rest))).
  { destruct body_fields; [discriminate|]. cbn [py_or truthy py_get].
    rewrite Hres. reflexivity. }
  unfold reverse_geocode, reverse_geocode_try.
  cbn [requests_get bind]. unfold raise_for_status. cbn [status_code].
  rewrite Hs. cbn [bind response_json parsed_body]. rewrite Hget.
  cbn [bind py_or truthy py_first py_get].
  inversion Htext as [|? ? T1 Ht1]. subst.
  inversion Ht1 as [|? ? T2 Ht2]. subst.
  inversion Ht2 as [|? ? T3 Ht3]. subst.
  inversion Ht3 as [|? ? T4 _]. subst.
  unfold textual in T1, T2, T3, T4. unfold field_text.
  destruct (assoc "name" fields) as [[| | | [|c1 n] | |]|];
    try contradiction;
    destruct (assoc "admin1" fields) as [[| | | [|c2 a1] | |]|];
    try contradiction;
    destruct (assoc "admin2" fields) as [[| | | [|c3 a2] | |]|];
    try contradiction;
    destruct (assoc "country" fields) as [[| | | [|c4 co] | |]|];
    try contradiction;
    reflexivity.
Qed.

Lemma label_of_textual_result_witness :
  reverse_geocode Instances.degrees Instances.format_degrees
    (Response 200
       (Some (JObj [("results",
                     JArr [JObj [("name", JStr "Gangnam-gu");
                                 ("admin2", JStr "Seoul");
                                 ("country", JNull)]])])))
    37 127
  = "Gangnam-gu, Seoul".
Proof.
  apply (label_of_textual_result Instances.degrees Instances.format_degrees
           200
           [("results",
             JArr [JObj [("name", JStr "Gangnam-gu");
                         ("admin2", JStr "Seoul");
                         ("country", JNull)]])]
           [("name", JStr "Gangnam-gu"); ("admin2", JStr "Seoul");
            ("country", JNull)]
           [] 37 127).
  - reflexivity.
  - reflexivity.
  - repeat constructor.
Defined.

(** ** From the answer to the page *)

Lemma parsed_rows_no_height (parse : cell -> parsed) (d : hourly_object) :
  height d = O -> parsed_rows parse d = [].
Proof.
  intros H. unfold parsed_rows. rewrite H.
  destruct (position "time" (map fst d)); reflexivity.
Qed.

Lemma converted_rows_no_height (parse : cell -> parsed) (d : hourly_object) :
  height d = O -> converted_rows parse d = [].
Proof.
  intros H. unfold converted_rows. rewrite H.
  destruct (position "time" (map fst d)); reflexivity.
Qed.

Lemma df_empty_no_rows (df : DataFrame) : rows df = [] -> df_empty df = true.
Proof.
  intros H. unfold df_empty. rewrite H. destruct (columns df); reflexivity.
Qed.

(** X14: an answer without rows (no array at all, or arrays that are all
    empty) gives the "no data" page in both variants: the warning and
    nothing else, the run being stopped. *)
Theorem answer_without_rows_warns
        (parse : cell -> parsed) (fmt : nat -> cell -> result string)
        (s : Z) (js : forecast_json) (hours : Z) (df0 : DataFrame) :
  is_error_status s = false ->
  pd_DataFrame (hourly_or_empty js) = Ok df0 ->
  height (hourly_or_empty js) = O ->
  run (V1.weather_section parse fmt (Response s (Some js)) hours)
  = ([st_warning no_data_warning], Stopped) /\
  run (V2.weather_section parse fmt (Response s (Some js)) hours)
  = ([st_warning no_data_warning], Stopped).
Proof.
  intros Hs Hdf Hh.
  destruct (pd_DataFrame_Ok _ df0 Hdf) as [Hlen Heq].
  split.
  - unfold V1.weather_section.
    rewrite (V1_fetch_Ok parse s js hours df0 Hs Hdf).
    destruct (has_column df0 "time") eqn:Ht.
    + assert (Ha : time_array (hourly_or_empty js) = []).
      { apply length_zero_iff_nil.
        rewrite (time_array_length _ df0 Hdf); [exact Hh|].
        unfold has_column in Ht. rewrite Heq in Ht. cbn [columns] in Ht.
        apply existsb_eqb_In. exact Ht. }
      rewrite Ha. cbn [existsb].
      rewrite (converted_rows_no_height parse _ Hh), slice_to_nil.
      rewrite df_empty_no_rows by reflexivity. reflexivity.
    + rewrite df_empty_no_rows; [reflexivity|].
      unfold rename. cbn [rows]. rewrite Heq. cbn [rows]. rewrite Hh.
      reflexivity.
  - unfold V2.weather_section.
    rewrite (V2_fetch_Ok parse s js hours df0 Hs Hdf).
    rewrite (parsed_rows_no_height parse _ Hh). cbn [sort_rows fold_right].
    rewrite slice_to_nil.
    rewrite df_empty_no_rows; [reflexivity|].
    cbn [rows]. destruct (0 <? hours); reflexivity.
Qed.

Lemma answer_without_rows_warns_witness :
  run (V1.weather_section Instances.to_datetime_scalar Instances.format_value
         (Response 200
            (Some {| hourly := Some [("time", []); ("temperature_2m", [])] |}))
         48)
  = ([st_warning no_data_warning], Stopped) /\
  run (V2.weather_section Instances.to_datetime_scalar Instances.format_value
         (Response 200
            (Some {| hourly := Some [("time", []); ("temperature_2m", [])] |}))
         48)
  = ([st_warning no_data_warning], Stopped).
Proof.
  apply (answer_without_rows_warns Instances.to_datetime_scalar
           Instances.format_value 200
           {| hourly := Some [("time", []); ("temperature_2m", [])] |} 48
           {| columns := ["time"; "temperature_2m"]; rows := [] |});
    reflexivity.
Defined.

(** A variable the answer lacks, under neither name, is no column of the
    returned table. *)
Lemma absent_variable_column (parse : cell -> parsed)
      (get : http_outcome forecast_json) (hours : Z) (df : DataFrame)
      (k : string) :
  V1.fetch_hourly_weather parse get hours = Ok df \/
  V2.fetch_hourly_weather parse get hours = Ok df ->
  In k raw_keys ->
  ~ In k (upstream_keys (upstream get)) ->
  ~ In (display_label k) (upstream_keys (upstream get)) ->
  has_column df (display_label k) = false.
Proof.
  intros Hf Hk Hn Hl. apply existsb_eqb_not_In. intros Hc.
  destruct (columns_from_upstream parse get hours df Hf _ Hc) as [u [Hin Hu]].
  destruct (display_label_source u k Hk (eq_sym Hu)) as [-> | ->];
    contradiction.
Qed.

Lemma ui_bind_Next {A B : Type} (m : ui A) (k : A -> ui B)
      (ws : list widget) (b : B) :
  ui_bind m k = (ws, Next b) ->
  exists w1 a w2, m = (w1, Next a) /\ k a = (w2, Next b) /\
                  ws = (w1 ++ w2)%list.
Proof.
  unfold ui_bind. destruct m as [w1 [a|h]]; [|discriminate].
  destruct (k a) as [w2 st] eqn:Ek. intros H. inversion H. subst.
  exists w1, a, w2. repeat split. exact Ek.
Qed.

Lemma V2_summary_marker (fmt : nat -> cell -> result string)
      (df : DataFrame) (col label : string) (ws : list widget) :
  In (col, label) card_labels ->
  has_column df col = false ->
  V2.summary_cards fmt df = (ws, Next tt) ->
  In (st_metric label "N/A") ws.
Proof.
  intros Hin Habs. unfold V2.summary_cards.
  destruct (V2.latest df) as [latest|e]; [|discriminate].
  cbn [lift ui_bind emit app].
  assert (Hcard : forall digits unit_text,
             V2.card fmt df latest col label digits unit_text
             = ([st_metric label "N/A"], Next tt)).
  { intros. unfold V2.card. rewrite Habs. reflexivity. }
  cbn in Hin.
  destruct Hin as [E | [E | [E | [E | []]]]]; inversion E; subst col label;
    rewrite Hcard;
    repeat match goal with
           | |- context [V2.card ?f ?d ?l ?c ?lb ?n ?u] =>
               destruct (V2.card f d l c lb n u) as [? [[]|?]]
           end;
    cbn [ui_bind app]; intros Hws; inversion Hws; subst;
    cbn [In app]; rewrite ?in_app_iff; cbn [In]; tauto.
Qed.

Lemma V2_rendering_fails_only
      (parse : cell -> parsed) (fmt : nat -> cell -> result string)
      (get : http_outcome forecast_json) (hours : Z) (df : DataFrame) :
  V2.fetch_hourly_weather parse get hours = Ok df ->
  df_empty df = false ->
  fails_only_formatting
    fmt
    (ui_bind (V2.summary_cards fmt df)
       (fun _ => ui_bind (V2.charts df)
          (fun _ => ui_bind (emit (st_markdown "---"))
             (fun _ => emit (st_caption data_source_caption))))).
Proof.
  intros Hf He.
  destruct (nonempty_rows df He) as [r [rs Hrows]].
  pose proof (V2_rectangular parse get hours df Hf) as Hrect.
  apply fails_only_formatting_bind;
    [apply (V2_summary_fails_only fmt df r rs Hrect Hrows)|intros _].
  apply completes_fails_only.
  apply completes_bind; [apply V2_charts_complete|intros _].
  apply completes_bind; intros; apply completes_emit.
Qed.

(** X15: in the improved variant a variable missing from the answer shows
    on the page as "N/A": when the answer carries no field for one of the
    four variables, under its raw key or its display label, and the script
    runs to its end, the card of that variable reads "N/A". *)
Theorem missing_variable_shows_not_available
        (parse : cell -> parsed) (fmt : nat -> cell -> result string)
        (get : http_outcome forecast_json) (hours : Z)
        (k label : string) (ws : list widget) :
  In k raw_keys ->
  In (display_label k, label) card_labels ->
  ~ In k (upstream_keys (upstream get)) ->
  ~ In (display_label k) (upstream_keys (upstream get)) ->
  run (V2.weather_section parse fmt get hours) = (ws, Finished) ->
  In (st_metric label "N/A") ws.
Proof.
  intros Hk Hlab Hn Hl. unfold V2.weather_section.
  destruct (V2.fetch_hourly_weather parse get hours) as [df|e] eqn:Hf;
    [|intros H; discriminate H].
  destruct (df_empty df) eqn:He; [intros H; discriminate H|].
  pose proof (absent_variable_column parse get hours df k (or_intror Hf)
                Hk Hn Hl) as Habs.
  pose proof (V2_rendering_fails_only parse fmt get hours df Hf He) as Hs.
  intros H. unfold run in H.
  destruct (ui_bind (V2.summary_cards fmt df) _) as [w [[]|h]] eqn:Eb;
    inversion H; subst.
  2: { destruct (Hs ws Finished eq_refl) as [e [He' _]]. discriminate He'. }
  destruct (ui_bind_Next _ _ _ _ Eb) as [w1 [[] [w2 [Hsum [_ ->]]]]].
  apply in_or_app. left.
  apply (V2_summary_marker fmt df (display_label k) label w1 Hlab Habs Hsum).
Qed.

Lemma missing_variable_shows_not_available_witness :
  In (st_metric "Precipitation (latest)" "N/A")
     [st_columns 4; st_metric "Temperature (latest)" "21.5 °C";
      st_metric "Wind Speed (latest)" "N/A";
      st_metric "Precipitation (latest)" "N/A";
      st_metric "RH (latest)" "N/A";
      st_tabs tab_names;
      st_line_chart
        {| columns := ["Temperature (°C)"];
           rows := [(CTime 1704067200000000000, [CNum 215 1])] |};
      st_info "Precipitation not available for this location/time.";
      st_info "Wind/Humidity not available for this location/time.";
      st_markdown "---"; st_caption data_source_caption].
Proof.
  apply (missing_variable_shows_not_available
           Instances.to_datetime_scalar Instances.format_value
           (Instances.answer
              [("time", [CStr "2024-01-01T00:00"]);
               ("temperature_2m", [CNum 215 1])]) 48
           "precipitation" "Precipitation (latest)").
  - cbn. tauto.
  - cbn. tauto.
  - cbn. intros [E | [E | []]]; discriminate E.
  - cbn. intros [E | [E | []]]; discriminate E.
  - vm_compute. reflexivity.
Defined.

Lemma V1_summary_halts (fmt : nat -> cell -> result string)
      (df : DataFrame) (col : string) (r : row) (rs : list row) :
  In col display_columns ->
  has_column df col = false ->
  rows df = r :: rs ->
  exists ws e, V1.summary_cards fmt df = (ws, Halt (Uncaught e)).
Proof.
  intros Hin Habs Hrows. unfold V1.summary_cards.
  unfold V1.latest. rewrite (iloc_first df r rs Hrows).
  cbn [lift ui_bind emit app].
  assert (Hmiss : forall digits unit_text,
             metric_text fmt digits unit_text
                         (combine (columns df) (snd r)) col
             = Raise (KeyError col)).
  { intros. apply metric_text_missing. exact Habs. }
  cbn in Hin.
  destruct Hin as [E | [E | [E | [E | []]]]]; subst col;
    repeat match goal with
           | |- context [lift (metric_text ?f ?n ?u ?l ?c)] =>
               first [ rewrite (Hmiss n u)
                     | destruct (metric_text f n u l c) ];
               cbn [lift ui_bind emit app]
           end;
    eauto.
Qed.

(** X16: in the original variant a variable missing from the answer ends
    the run: when the answer has rows but no field for one of the four
    variables, under its raw key or its display label, the script ends
    with an uncaught exception and never reaches its last line. *)
Theorem missing_variable_ends_original_run
        (parse : cell -> parsed) (fmt : nat -> cell -> result string)
        (get : http_outcome forecast_json) (hours : Z) (df : DataFrame)
        (k : string) :
  In k raw_keys ->
  ~ In k (upstream_keys (upstream get)) ->
  ~ In (display_label k) (upstream_keys (upstream get)) ->
  V1.fetch_hourly_weather parse get hours = Ok df ->
  df_empty df = false ->
  exists ws e,
    run (V1.weather_section parse fmt get hours) = (ws, Uncaught e).
Proof.
  intros Hk Hn Hl Hf He.
  pose proof (absent_variable_column parse get hours df k (or_introl Hf)
                Hk Hn Hl) as Habs.
  destruct (nonempty_rows df He) as [r [rs Hrows]].
  assert (Hcol : In (display_label k) display_columns).
  { cbn in Hk. destruct Hk as [<- | [<- | [<- | [<- | []]]]]; cbn; tauto. }
  destruct (V1_summary_halts fmt df (display_label k) r rs Hcol Habs Hrows)
    as [ws [e Hsum]].
  exists ws, e. unfold V1.weather_section. rewrite Hf, He.
  unfold ui_bind at 1. rewrite Hsum. reflexivity.
Qed.

Lemma missing_variable_ends_original_run_witness :
  exists ws e,
    run (V1.weather_section Instances.to_datetime_scalar
           Instances.format_value
           (Instances.answer
              [("time", [CStr "2024-01-01T00:00"]);
               ("temperature_2m", [CNum 215 1]);
               ("windspeed_10m", [CNum 72 1]);
               ("relative_humidity_2m", [CNum 64 0])]) 48)
    = (ws, Uncaught e).
Proof.
  apply (missing_variable_ends_original_run
           Instances.to_datetime_scalar Instances.format_value
           (Instances.answer
              [("time", [CStr "2024-01-01T00:00"]);
               ("temperature_2m", [CNum 215 1]);
               ("windspeed_10m", [CNum 72 1]);
               ("relative_humidity_2m", [CNum 64 0])]) 48
           {| columns := ["Temperature (°C)"; "Wind Speed (km/h)";
                          "Relative Humidity (%)"];
              rows := [(CTime 1704067200000000000,
                        [CNum 215 1; CNum 72 1; CNum 64 0])] |}
           "precipitation").
  - cbn. tauto.
  - cbn. intros [E | [E | [E | [E | []]]]]; discriminate E.
  - cbn. intros [E | [E | [E | [E | []]]]]; discriminate E.
  - vm_compute. reflexivity.
  - reflexivity.
Defined.
